(** * The code inspector of [inspector.py]

    A shallow embedding of [AdvancedErrorHandler] and [CodeInspector]:
    the error taxonomy and its classifier, static analysis over the tree
    that [ast.parse] returns, execution through [exec] with redirected
    streams, fix suggestions, and the orchestrating
    [comprehensive_inspection].

    The Python runtime the inspector calls into ([ast.parse], [exec],
    [traceback]) is a parameter of the development, the class [Python];
    the statements about the inspector hold for every instance.  A
    reference instance, built on an interpreter for a fragment of
    Python, gives the closed examples.

    Of the data handling, [DataProcessor.identify_column_entries] of
    [analytics/col_analysis.py] is embedded as well: it is the part
    that works on plain Python values.

    Conventions:
    - a call returns, raises, or never returns ([result]), and threads
      the part of the interpreter state the inspector touches ([world]):
      the clock, the current [sys.stdout] and [sys.stderr], and the
      fault being handled;
    - time is counted in clock ticks, where the code has float seconds;
    - of a Python object only the class, the base classes and [str()]
      are kept ([pyobj]); [str()] always returns;
    - dictionaries used as records with fixed keys are records,
      dictionaries of strings are finite maps;
    - the inspected code acts on the inspector through what it writes,
      the time it takes and the fault it raises, not by replacing parts
      of the host's modules. *)

From Stdlib Require Import ZArith NArith String Ascii List Lia DecimalString.
From stdpp Require Import base option list strings gmap.

Set Warnings "-register-all".
Local Open Scope Z_scope.

(** ** Python objects as the inspector sees them *)

(** Of an object the inspector only ever asks for its class (and the
    classes it inherits from), its [str()], and, for a [SyntaxError],
    the position the parser reported. *)
Record pyobj : Type := PyObj {
  obj_mro : list string;     (* names along [type(x).__mro__] *)
  obj_str : string;          (* [str(x)] *)
  obj_lineno : option Z;     (* [x.lineno], [None] when absent *)
  obj_offset : option Z      (* [x.offset] *)
}.

(** [type(x).__name__] *)
Definition type_name (x : pyobj) : string := hd "object" (obj_mro x).

(** [isinstance(x, cls)], which is also how an [except cls] clause
    selects the faults it handles. *)
Definition isinstance (x : pyobj) (cls : string) : bool :=
  bool_decide (cls ∈ obj_mro x).

(** ** The [ast] module: trees, [iter_child_nodes], [walk] *)

Module ast.

(** A node carries its class name and, in the order of [_fields], the
    child nodes held by each field: a field holding one node is a
    singleton, an empty optional field is the empty list, and fields
    holding plain values (identifiers, constants) carry no nodes. *)
Inductive AST : Type :=
| Node (class : string) (fields : list (string * list AST)).

Definition class_of (node : AST) : string :=
  match node with Node class _ => class end.

Definition fields_of (node : AST) : list (string * list AST) :=
  match node with Node _ fields => fields end.

(** [isinstance(node, (c1, ..., cn))] for node classes, none of which
    has a subclass among the parser's node classes. *)
Definition isinstance (node : AST) (classes : list string) : bool :=
  bool_decide (class_of node ∈ classes).

(** [node.name] for a list-valued field; the parser always sets it. *)
Definition field (name : string) (node : AST) : list AST :=
  match find (fun f : string * list AST => String.eqb (fst f) name) (fields_of node) with
  | Some f => snd f
  | None => []
  end.

(** [ast.iter_child_nodes]: the nodes of every field, in field order. *)
Definition iter_child_nodes (node : AST) : list AST :=
  concat (map snd (fields_of node)).

Fixpoint size (node : AST) : nat :=
  match node with
  | Node _ fields =>
      S (sum_list (map (fun f : string * list AST =>
                          match f with (_, nodes) => sum_list (map size nodes) end) fields))
  end.

(** [ast.walk]: breadth first over a queue, [popleft] then [extend]
    with the children.  The queue never holds more nodes than the tree
    has, so [size] is fuel enough (lemma [walk_queue_complete]). *)
Fixpoint walk_queue (fuel : nat) (todo : list AST) : list AST :=
  match fuel, todo with
  | S fuel, node :: todo => node :: walk_queue fuel (todo ++ iter_child_nodes node)
  | _, _ => []
  end.

Definition walk (node : AST) : list AST := walk_queue (size node) [node].

(** The sum of a weight over every node of a tree, by structure. *)
Fixpoint tree_sum (weight : AST -> Z) (node : AST) : Z :=
  match node with
  | Node class fields =>
      weight (Node class fields)
      + foldr Z.add 0
          (map (fun f : string * list AST =>
                  match f with (_, nodes) => foldr Z.add 0 (map (tree_sum weight) nodes) end)
               fields)
  end.

(** A tree with one node missing: the path from the root to the hole. *)
Inductive context : Type :=
| Hole
| Inside (class : string) (before : list (string * list AST))
         (name : string) (pre : list AST) (inner : context) (post : list AST)
         (after : list (string * list AST)).

Fixpoint plug (c : context) (t : AST) : AST :=
  match c with
  | Hole => t
  | Inside class before name pre inner post after =>
      Node class (before ++ (name, pre ++ plug inner t :: post) :: after)
  end.

End ast.

(** ** [CodeInspector._calculate_complexity] *)

Definition branching : list string :=
  ["If"; "While"; "For"; "Try"; "ExceptHandler"; "AsyncFor"; "AsyncWith"; "Match"].

(** One turn of the loop over [ast.walk(tree)]. *)
Definition complexity_step (complexity : Z) (node : ast.AST) : Z :=
  let complexity :=
    if ast.isinstance node branching then complexity + 1 else complexity in
  if ast.isinstance node ["BoolOp"]
  then complexity + (Z.of_nat (length (ast.field "values" node)) - 1)
  else complexity.

Definition _calculate_complexity (tree : ast.AST) : Z :=
  fold_left complexity_step (ast.walk tree) 1.

(** ** Built-in exception classes *)

(** Each built-in class the development meets, with its base class. *)
Definition exception_base : gmap string string :=
  list_to_map
    [("BaseException", "object"); ("Exception", "BaseException");
     ("SystemExit", "BaseException"); ("KeyboardInterrupt", "BaseException");
     ("GeneratorExit", "BaseException");
     ("TypeError", "Exception"); ("ValueError", "Exception");
     ("NameError", "Exception"); ("UnboundLocalError", "NameError");
     ("ArithmeticError", "Exception"); ("ZeroDivisionError", "ArithmeticError");
     ("LookupError", "Exception"); ("IndexError", "LookupError");
     ("KeyError", "LookupError");
     ("SyntaxError", "Exception"); ("IndentationError", "SyntaxError");
     ("AttributeError", "Exception");
     ("OSError", "Exception"); ("FileNotFoundError", "OSError");
     ("MemoryError", "Exception");
     ("RuntimeError", "Exception"); ("RecursionError", "RuntimeError");
     ("AssertionError", "Exception")].

(** [cls.__mro__], by following the base classes. *)
Fixpoint mro_from (depth : nat) (cls : string) : list string :=
  match depth with
  | O => [cls]
  | S depth =>
      match exception_base !! cls with
      | Some base => cls :: mro_from depth base
      | None => [cls]
      end
  end.

Definition builtin_mro (cls : string) : list string := mro_from 8 cls.

(** [cls(message)] for a built-in exception class. *)
Definition new_exception (cls message : string) : pyobj :=
  PyObj (builtin_mro cls) message None None.

Definition quote : string := String "039"%char EmptyString.
Definition dquote : string := String "034"%char EmptyString.
Definition newline : string := String "010"%char EmptyString.

(** ** The interpreter state the inspector touches *)

Record world : Type := World {
  clock : N;                   (* what [time.time()] returns, in ticks *)
  sys_stdout : string;         (* text held by the object [sys.stdout] names *)
  sys_stderr : string;
  exc_info : option pyobj      (* the fault being handled, [sys.exc_info()] *)
}.

Definition set_clock (t : N) (w : world) : world :=
  World t (sys_stdout w) (sys_stderr w) (exc_info w).
Definition set_streams (out err : string) (w : world) : world :=
  World (clock w) out err (exc_info w).
Definition set_exc_info (e : option pyobj) (w : world) : world :=
  World (clock w) (sys_stdout w) (sys_stderr w) e.

(** What a call does: return, raise, or never come back. *)
Inductive result (A : Type) : Type :=
| Returns (a : A) (w : world)
| Raises (e : pyobj) (w : world)
| NeverReturns.
Arguments Returns {A} a w.
Arguments Raises {A} e w.
Arguments NeverReturns {A}.

Definition M (A : Type) : Type := world -> result A.

#[global] Instance M_ret : MRet M := fun A a w => Returns a w.
#[global] Instance M_bind : MBind M := fun A B f m w =>
  match m w with
  | Returns a w' => f a w'
  | Raises e w' => Raises e w'
  | NeverReturns => NeverReturns
  end.

Definition raise {A : Type} (e : pyobj) : M A := fun w => Raises e w.

(** [try: body  except cls as e: handler e].  Inside the handler
    [sys.exc_info()] is [e]; it is put back on the way out. *)
Definition try_except {A : Type} (body : M A) (cls : string) (handler : pyobj -> M A) : M A :=
  fun w =>
    match body w with
    | Raises e w' =>
        if isinstance e cls then
          match handler e (set_exc_info (Some e) w') with
          | Returns a w'' => Returns a (set_exc_info (exc_info w') w'')
          | Raises e' w'' => Raises e' (set_exc_info (exc_info w') w'')
          | NeverReturns => NeverReturns
          end
        else Raises e w'
    | r => r
    end.

(** [time.time()] *)
Definition time_time : M N := fun w => Returns (clock w) w.

(** [with contextlib.redirect_stdout(out), contextlib.redirect_stderr(err): body]:
    [sys.stdout] and [sys.stderr] name the two buffers while [body] runs
    and name the former streams again on every way out. *)
Definition redirect {A : Type} (out err : string) (body : M A) : M A :=
  fun w =>
    let restore := set_streams (sys_stdout w) (sys_stderr w) in
    match body (set_streams out err w) with
    | Returns a w' => Returns a (restore w')
    | Raises e w' => Raises e (restore w')
    | NeverReturns => NeverReturns
    end.

(** [stdout_capture.getvalue()], inside the [with] block where
    [sys.stdout] is [stdout_capture]. *)
Definition getvalue_stdout : M string := fun w => Returns (sys_stdout w) w.

(** [d[k]] on a dictionary of strings. *)
Definition getitem (d : gmap string string) (k : string) : M string :=
  match d !! k with
  | Some v => mret v
  | None => raise (new_exception "KeyError" (quote +:+ k +:+ quote))
  end.

(** ** The Python runtime underneath *)

Inductive parse_result : Type :=
| Parsed (tree : ast.AST)
| ParseFault (e : pyobj).

(** What running a piece of source does, seen from outside: the text it
    wrote to [sys.stdout] and [sys.stderr], the ticks it took, and the
    fault it ended with, if any. *)
Inductive exec_behaviour : Type :=
| Completes (out err : string) (elapsed : N)
| Faults (e : pyobj) (out err : string) (elapsed : N)
| Hangs.

Class Python : Type := {
  ast_parse : string -> parse_result;           (* [ast.parse(code)] *)
  exec : N -> string -> exec_behaviour;
    (* [exec(code, {}, local_vars)], started at a clock reading *)
  format_exception : pyobj -> string            (* the traceback text of a fault *)
}.

(** ** [AdvancedErrorHandler] *)

Definition taxonomy (category severity general_advice : string) : gmap string string :=
  {[ "category" := category; "severity" := severity; "general_advice" := general_advice ]}.

Definition ERROR_TYPES : gmap string (gmap string string) :=
  list_to_map
    [("SyntaxError",
      taxonomy "Syntax" "critical"
        "Check code syntax, indentation, and language-specific constructs.");
     ("IndentationError",
      taxonomy "Syntax" "critical"
        "Ensure consistent indentation. Use spaces or tabs consistently.");
     ("TypeError",
      taxonomy "Type Mismatch" "high"
        "Verify type compatibility and type conversions.");
     ("ValueError",
      taxonomy "Value Error" "high" "Check input values and their constraints.");
     ("NameError",
      taxonomy "Reference" "high" "Ensure all variables are defined before use.");
     ("AttributeError",
      taxonomy "Attribute" "medium" "Verify object attributes and method calls.");
     ("IndexError",
      taxonomy "Indexing" "high" "Check array/list indexing and bounds.");
     ("KeyError",
      taxonomy "Dictionary" "high" "Verify dictionary key existence before access.");
     ("ZeroDivisionError",
      taxonomy "Arithmetic" "high" "Add checks to prevent division by zero.");
     ("FileNotFoundError",
      taxonomy "File System" "high" "Verify file paths and permissions.");
     ("MemoryError",
      taxonomy "Resource" "critical"
        "Optimize memory usage, handle large data more efficiently.")].

(** ** Reports *)

Record CodeInspector : Type := { verbose : bool }.

Inductive static_section : Type :=
| Analysis (function_count class_count import_count complexity_score : Z)
    (* [syntax_valid: True] and the four metrics *)
| SyntaxFault (message : string) (line offset : option Z)
    (* [syntax_valid: False] and [syntax_error] *)
| StaticFallback (error : gmap string string).
    (* [{'error': classification}] *)

Record error_details_t : Type := {
  classification : gmap string string;
  suggested_fixes : list (gmap string string)
}.

Record execution_result : Type := {
  success : bool;
  output : option string;
  runtime : option N;
  error : option (gmap string string);
  error_details : option error_details_t   (* [None]: the key is absent *)
}.

Inductive runtime_section : Type :=
| Executed (r : execution_result)
| RuntimeFallback (error : gmap string string).

Record report : Type := {
  report_static_analysis : static_section;     (* key ['static_analysis'] *)
  report_runtime_analysis : runtime_section    (* key ['runtime_analysis'] *)
}.

Definition default_timeout : N := 5%N.

Section Inspector.
Context {python : Python}.

(** The text [traceback.format_exc()] gives: the traceback of the
    fault being handled, or this line when there is none. *)
Definition current_traceback (w : world) : string :=
  match exc_info w with
  | Some e => format_exception e
  | None => "NoneType: None" +:+ newline
  end.

Definition traceback_format_exc : M string := fun w => Returns (current_traceback w) w.

Definition classify_error (error : pyobj) : M (gmap string string) :=
  let error_type := type_name error in
  let error_info :=
    default (taxonomy "Unknown" "low" "Unexpected error occurred.")
            (ERROR_TYPES !! error_type) in
  category ← getitem error_info "category";
  severity ← getitem error_info "severity";
  general_advice ← getitem error_info "general_advice";
  traceback ← traceback_format_exc;
  mret (<["type" := error_type]>
        (<["message" := obj_str error]>
         (<["category" := category]>
          (<["severity" := severity]>
           (<["general_advice" := general_advice]>
            {[ "traceback" := traceback ]}))))).

(** ** [CodeInspector] *)

Definition parse (code : string) : M ast.AST := fun w =>
  match ast_parse code with
  | Parsed tree => Returns tree w
  | ParseFault e => Raises e w
  end.

Definition count_instances (classes : list string) (tree : ast.AST) : Z :=
  Z.of_nat (length (List.filter (fun node => ast.isinstance node classes) (ast.walk tree))).

Definition static_analysis (self : CodeInspector) (code : string) : M static_section :=
  try_except
    (tree ← parse code;
     mret (Analysis (count_instances ["FunctionDef"] tree)
                    (count_instances ["ClassDef"] tree)
                    (count_instances ["Import"; "ImportFrom"] tree)
                    (_calculate_complexity tree)))
    "SyntaxError"
    (fun e => mret (SyntaxFault (obj_str e) (obj_lineno e) (obj_offset e))).

(** [exec(code, {}, local_vars)]: what the code writes goes to
    whatever [sys.stdout] and [sys.stderr] name at the time. *)
Definition run_exec (code : string) : M unit := fun w =>
  match exec (clock w) code with
  | Completes out err elapsed =>
      Returns tt (World (clock w + elapsed) (sys_stdout w +:+ out) (sys_stderr w +:+ err)
                        (exc_info w))
  | Faults e out err elapsed =>
      Raises e (World (clock w + elapsed) (sys_stdout w +:+ out) (sys_stderr w +:+ err)
                      (exc_info w))
  | Hangs => NeverReturns
  end.

Definition runtime_execution (self : CodeInspector) (code : string) (timeout : N)
  : M execution_result :=
  let stdout_capture := "" in
  let stderr_capture := "" in
  start_time ← time_time;
  let execution_result :=
    {| success := false; output := None; runtime := None; error := None;
       error_details := None |} in
  try_except
    (redirect stdout_capture stderr_capture
       (_ ← run_exec code;
        now ← time_time;
        let execution_time := (now - start_time)%N in
        captured ← getvalue_stdout;
        mret {| success := true; output := Some captured;
                runtime := Some execution_time;
                error := error execution_result;
                error_details := error_details execution_result |}))
    "Exception"
    (fun e =>
       traceback ← traceback_format_exc;
       now ← time_time;
       mret {| success := success execution_result;
               output := output execution_result;
               runtime := Some (now - start_time)%N;
               error := Some (<["type" := type_name e]>
                              (<["message" := obj_str e]>
                               {[ "traceback" := traceback ]}));
               error_details := error_details execution_result |}).

Definition suggestion (fix_ example code_hint : string) : gmap string string :=
  {[ "fix" := fix_; "example" := example; "code_hint" := code_hint ]}.

Definition analyze_and_suggest_fix (self : CodeInspector) (code : string)
    (error_info : gmap string string) : M (list (gmap string string)) :=
  let suggestions := [] in
  error_type ← getitem error_info "type";
  let suggestions :=
    if String.eqb error_type "TypeError" then
      suggestions ++
      [suggestion "Add type conversion or type checking"
         "Ensure consistent types or use explicit type conversion"
         "if not isinstance(value, expected_type): value = type_conversion(value)"]
    else if String.eqb error_type "ValueError" then
      suggestions ++
      [suggestion "Validate input values"
         "Add input validation before processing"
         ("if not validate_condition(value): raise ValueError(" +:+ dquote
            +:+ "Invalid input" +:+ dquote +:+ ")")]
    else if String.eqb error_type "IndexError" then
      suggestions ++
      [suggestion "Add bounds checking"
         "Check list length before indexing"
         "if index < len(my_list): value = my_list[index]"]
    else if String.eqb error_type "KeyError" then
      suggestions ++
      [suggestion "Use .get() method or check key existence"
         "my_dict.get(key, default_value)"
         "value = my_dict.get(key, default_value)"]
    else if String.eqb error_type "ZeroDivisionError" then
      suggestions ++
      [suggestion "Add zero division check"
         "if denominator != 0: result = numerator / denominator"
         "if denominator != 0: result = numerator / denominator else: handle_zero_division()"]
    else suggestions in
  let suggestions :=
    match suggestions with
    | [] =>
        [suggestion "Review and debug code"
           "Carefully examine the code context and error message"
           "# Requires manual inspection"]
    | _ => suggestions
    end in
  mret suggestions.

(** [type(x)] for a string [x]: the class [str], whatever [x] spells. *)
Definition type_of_str (x : string) : list string := ["str"; "object"].

(** [cls(message)] for a class given by its [__mro__]. *)
Definition instantiate (cls : list string) (message : string) : pyobj :=
  PyObj cls message None None.

Definition comprehensive_inspection (self : CodeInspector) (code : string) : M report :=
  (* Static analysis *)
  static ← try_except (static_analysis self code) "Exception"
    (fun static_error =>
       classified ← classify_error static_error;
       mret (StaticFallback classified));
  (* Runtime execution *)
  runtime_result ← try_except
    (runtime_result ← runtime_execution self code default_timeout;
     (* ['error' in runtime_result] holds of every result: the key is
        always there, with [None] under it when nothing was raised *)
     if negb (success runtime_result) && true then
       error_info ← match error runtime_result with
                    | Some error_info => mret error_info
                    | None => raise (new_exception "TypeError"
                                       (quote +:+ "NoneType" +:+ quote
                                          +:+ " object is not subscriptable"))
                    end;
       error_type ← getitem error_info "type";
       message ← getitem error_info "message";
       error_classification ←
         classify_error (instantiate (type_of_str error_type) message);
       fix_suggestions ← analyze_and_suggest_fix self code error_classification;
       mret (Executed
               {| success := success runtime_result;
                  output := output runtime_result;
                  runtime := runtime runtime_result;
                  error := error runtime_result;
                  error_details :=
                    Some {| classification := error_classification;
                            suggested_fixes := fix_suggestions |} |})
     else mret (Executed runtime_result))
    "Exception"
    (fun runtime_error =>
       classified ← classify_error runtime_error;
       mret (RuntimeFallback classified));
  mret {| report_static_analysis := static;
          report_runtime_analysis := runtime_result |}.

End Inspector.

(** ** A fragment of Python, to run concrete sources

    Enough of the language for the sources studied below: integer and
    string constants, names, [+ - *], comparisons, calls, [def],
    [return], assignment, [while], [if], [raise], [print] and the
    built-in exception classes.  Name resolution follows CPython: a
    block run by [exec] with separate dictionaries stores its names in
    the locals dictionary, while a function body resolves every name
    that is not its own local in the globals dictionary and then in the
    built-ins.  Whatever the fragment does not cover is [Stuck], never
    guessed. *)

Module Py.

Inductive constant : Type :=
| CNone | CBool (b : bool) | CInt (z : Z) | CStr (s : string).

Inductive operator : Type := Add | Sub | Mult.
Inductive cmpop : Type := Eq | Lt | LtE.

Inductive expr : Type :=
| Constant (value : constant)
| Name (id : string)
| BinOp (left : expr) (op : operator) (right : expr)
| Compare (left : expr) (op : cmpop) (comparator : expr)
| Call (func : expr) (args : list expr).

Inductive stmt : Type :=
| FunctionDef (name : string) (args : list string) (body : list stmt)
| Return (value : expr)
| Assign (target : string) (value : expr)
| While (test : expr) (body : list stmt)
| If (test : expr) (body orelse : list stmt)
| Raise (exc : expr)
| Expr (value : expr)
| Pass.

Inductive value : Type :=
| VNone | VBool (b : bool) | VInt (z : Z) | VStr (s : string)
| VFunction (name : string) (params : list string) (body : list stmt)
| VBuiltin (name : string)
| VClass (name : string)
| VException (e : pyobj).

(** The dictionaries of one run.  [locals = None] says that the module
    block's locals dictionary IS its globals dictionary, as when a file
    is run as a program; [exec(code, {}, local_vars)] has two. *)
Record state : Type := State {
  globals : gmap string value;
  locals : option (gmap string value);
  out : string;       (* text written to [sys.stdout] *)
  ticks : N           (* statements executed so far *)
}.

Inductive frame : Type :=
| ModuleFrame
| FunctionFrame (local_names : list string) (fast : gmap string value).

Inductive signal : Type := Normal | Returned (v : value).

Inductive outcome (A : Type) : Type :=
| Ok (a : A) (s : state)
| Exc (e : pyobj) (s : state)
| OutOfFuel
| Stuck.
Arguments Ok {A} a s.
Arguments Exc {A} e s.
Arguments OutOfFuel {A}.
Arguments Stuck {A}.

Definition bind {A B : Type} (m : outcome A) (k : A -> state -> outcome B) : outcome B :=
  match m with
  | Ok a s => k a s
  | Exc e s => Exc e s
  | OutOfFuel => OutOfFuel
  | Stuck => Stuck
  end.

(** The names every block can fall back on: [print] and the built-in
    exception classes. *)
Definition builtins : gmap string value :=
  <["print" := VBuiltin "print"]>
    (map_imap (fun name _ => Some (VClass name)) exception_base).

Definition value_of (c : constant) : value :=
  match c with
  | CNone => VNone
  | CBool b => VBool b
  | CInt z => VInt z
  | CStr s => VStr s
  end.

(** [type(v).__name__] *)
Definition type_name_of (v : value) : string :=
  match v with
  | VNone => "NoneType"
  | VBool _ => "bool"
  | VInt _ => "int"
  | VStr _ => "str"
  | VFunction _ _ _ => "function"
  | VBuiltin _ => "builtin_function_or_method"
  | VClass _ => "type"
  | VException e => type_name e
  end.

(** [bool] is a subclass of [int]. *)
Definition as_int (v : value) : option Z :=
  match v with
  | VInt z => Some z
  | VBool b => Some (if b then 1 else 0)
  | _ => None
  end.

(** [str(v)], where it does not depend on a memory address. *)
Definition str (v : value) : option string :=
  match v with
  | VNone => Some "None"
  | VBool b => Some (if b then "True" else "False")
  | VInt z => Some (NilZero.string_of_int (Z.to_int z))
  | VStr s => Some s
  | VException e => Some (obj_str e)
  | _ => None
  end.

Definition truthy (v : value) : bool :=
  match v with
  | VNone => false
  | VBool b => b
  | VInt z => negb (z =? 0)
  | VStr s => negb (String.eqb s "")
  | _ => true
  end.

Definition unsupported_operand (symbol : string) (a b : value) : pyobj :=
  new_exception "TypeError"
    ("unsupported operand type(s) for " +:+ symbol +:+ ": " +:+ quote +:+ type_name_of a
       +:+ quote +:+ " and " +:+ quote +:+ type_name_of b +:+ quote).

Definition binop (op : operator) (a b : value) (s : state) : outcome value :=
  match op with
  | Add =>
      match as_int a, as_int b, a, b with
      | Some x, Some y, _, _ => Ok (VInt (x + y)) s
      | _, _, VStr x, VStr y => Ok (VStr (x +:+ y)) s
      | _, _, VStr _, _ =>
          Exc (new_exception "TypeError"
                 ("can only concatenate str (not " +:+ dquote +:+ type_name_of b +:+ dquote
                    +:+ ") to str")) s
      | _, _, _, _ => Exc (unsupported_operand "+" a b) s
      end
  | Sub =>
      match as_int a, as_int b with
      | Some x, Some y => Ok (VInt (x - y)) s
      | _, _ => Exc (unsupported_operand "-" a b) s
      end
  | Mult =>
      match as_int a, as_int b, a, b with
      | Some x, Some y, _, _ => Ok (VInt (x * y)) s
      | _, _, VStr _, _ | _, _, _, VStr _ => Stuck
      | _, _, _, _ => Exc (unsupported_operand "*" a b) s
      end
  end.

(** The values [==] compares by content. *)
Definition plain (v : value) : bool :=
  match v with
  | VNone | VBool _ | VInt _ | VStr _ => true
  | _ => false
  end.

Definition compare (op : cmpop) (a b : value) (s : state) : outcome value :=
  match op with
  | Eq =>
      if plain a && plain b then
        match as_int a, as_int b, a, b with
        | Some x, Some y, _, _ => Ok (VBool (x =? y)) s
        | _, _, VStr x, VStr y => Ok (VBool (String.eqb x y)) s
        | _, _, VNone, VNone => Ok (VBool true) s
        | _, _, _, _ => Ok (VBool false) s
        end
      else Stuck
  | Lt | LtE =>
      match as_int a, as_int b, a, b with
      | Some x, Some y, _, _ =>
          Ok (VBool (match op with Lt => x <? y | _ => x <=? y end)) s
      | _, _, VStr _, VStr _ => Stuck
      | _, _, _, _ =>
          Exc (new_exception "TypeError"
                 (quote +:+ (match op with Lt => "<" | _ => "<=" end) +:+ quote
                    +:+ " not supported between instances of " +:+ quote +:+ type_name_of a
                    +:+ quote +:+ " and " +:+ quote +:+ type_name_of b +:+ quote)) s
      end
  end.

Definition name_error (id : string) : pyobj :=
  new_exception "NameError" ("name " +:+ quote +:+ id +:+ quote +:+ " is not defined").

(** [LOAD_GLOBAL]: the globals dictionary, then the built-ins. *)
Definition load_global (id : string) (s : state) : outcome value :=
  match globals s !! id with
  | Some v => Ok v s
  | None =>
      match builtins !! id with
      | Some v => Ok v s
      | None => Exc (name_error id) s
      end
  end.

(** Reading a name.  The module block uses [LOAD_NAME] (locals, then
    globals, then built-ins); a function body uses [LOAD_FAST] for its
    own locals and [LOAD_GLOBAL] for every other name. *)
Definition load (fr : frame) (id : string) (s : state) : outcome value :=
  match fr with
  | ModuleFrame =>
      match locals s ≫= (.!! id) with
      | Some v => Ok v s
      | None => load_global id s
      end
  | FunctionFrame local_names fast =>
      if bool_decide (id ∈ local_names) then
        match fast !! id with
        | Some v => Ok v s
        | None =>
            Exc (new_exception "UnboundLocalError"
                   ("cannot access local variable " +:+ quote +:+ id +:+ quote
                      +:+ " where it is not associated with a value")) s
        end
      else load_global id s
  end.

(** Binding a name: [STORE_NAME] writes the module block's locals
    dictionary, [STORE_FAST] the function's own frame. *)
Definition store (fr : frame) (id : string) (v : value) (s : state) : frame * state :=
  match fr with
  | ModuleFrame =>
      match locals s with
      | Some l => (ModuleFrame, State (globals s) (Some (<[id := v]> l)) (out s) (ticks s))
      | None => (ModuleFrame, State (<[id := v]> (globals s)) None (out s) (ticks s))
      end
  | FunctionFrame local_names fast => (FunctionFrame local_names (<[id := v]> fast), s)
  end.

(** The names a function body binds, which makes them its locals. *)
Fixpoint assigned (st : stmt) : list string :=
  match st with
  | FunctionDef name _ _ => [name]
  | Assign target _ => [target]
  | While _ body => concat (map assigned body)
  | If _ body orelse => concat (map assigned body) ++ concat (map assigned orelse)
  | _ => []
  end.

Definition tick (s : state) : state :=
  State (globals s) (locals s) (out s) (ticks s + 1).

Definition write (text : string) (s : state) : state :=
  State (globals s) (locals s) (out s +:+ text) (ticks s).

Fixpoint join (sep : string) (parts : list string) : string :=
  match parts with
  | [] => ""
  | [p] => p
  | p :: rest => p +:+ sep +:+ join sep rest
  end.

Fixpoint strs (vs : list value) : option (list string) :=
  match vs with
  | [] => Some []
  | v :: vs =>
      match str v, strs vs with
      | Some x, Some xs => Some (x :: xs)
      | _, _ => None
      end
  end.

(** Calling something that is not a user function. *)
Definition call_builtin (f : value) (args : list value) (s : state) : outcome value :=
  match f with
  | VBuiltin name =>
      if String.eqb name "print" then
        match strs args with
        | Some parts => Ok VNone (write (join " " parts +:+ newline) s)
        | None => Stuck
        end
      else Stuck
  | VClass name =>
      if String.eqb name "KeyError" then Stuck
      else
        match args with
        | [] => Ok (VException (new_exception name "")) s
        | [a] =>
            match str a with
            | Some message => Ok (VException (new_exception name message)) s
            | None => Stuck
            end
        | _ => Stuck
        end
  | _ =>
      Exc (new_exception "TypeError"
             (quote +:+ type_name_of f +:+ quote +:+ " object is not callable")) s
  end.

(** The interpreter.  Every construct costs one unit of fuel; running
    out of it is reported as such. *)
Fixpoint eval (fuel : nat) (fr : frame) (e : expr) (s : state) {struct fuel} : outcome value :=
  match fuel with
  | O => OutOfFuel
  | S fuel =>
      match e with
      | Constant c => Ok (value_of c) s
      | Name id => load fr id s
      | BinOp lhs op rhs =>
          bind (eval fuel fr lhs s) (fun a s =>
          bind (eval fuel fr rhs s) (fun b s => binop op a b s))
      | Compare lhs op rhs =>
          bind (eval fuel fr lhs s) (fun a s =>
          bind (eval fuel fr rhs s) (fun b s => compare op a b s))
      | Call func args =>
          bind (eval fuel fr func s) (fun f s =>
          bind (eval_args fuel fr args s) (fun vs s => call fuel f vs s))
      end
  end
with eval_args (fuel : nat) (fr : frame) (es : list expr) (s : state) {struct fuel}
  : outcome (list value) :=
  match fuel with
  | O => OutOfFuel
  | S fuel =>
      match es with
      | [] => Ok [] s
      | e :: es =>
          bind (eval fuel fr e s) (fun v s =>
          bind (eval_args fuel fr es s) (fun vs s => Ok (v :: vs) s))
      end
  end
with call (fuel : nat) (f : value) (args : list value) (s : state) {struct fuel}
  : outcome value :=
  match fuel with
  | O => OutOfFuel
  | S fuel =>
      match f with
      | VFunction _ params body =>
          if bool_decide (length params = length args) then
            let fr := FunctionFrame (params ++ concat (map assigned body))
                                    (list_to_map (zip params args)) in
            bind (exec_block fuel fr body s) (fun r s =>
              match r with
              | (Returned v, _) => Ok v s
              | (Normal, _) => Ok VNone s
              end)
          else Stuck
      | _ => call_builtin f args s
      end
  end
with exec_stmt (fuel : nat) (fr : frame) (st : stmt) (s : state) {struct fuel}
  : outcome (signal * frame) :=
  match fuel with
  | O => OutOfFuel
  | S fuel =>
      let s := tick s in
      match st with
      | FunctionDef name params body =>
          match fr with
          | ModuleFrame =>
              let '(fr, s) := store fr name (VFunction name params body) s in
              Ok (Normal, fr) s
          | FunctionFrame _ _ => Stuck     (* closures are outside the fragment *)
          end
      | Return value =>
          match fr with
          | ModuleFrame => Stuck           (* rejected by the compiler *)
          | FunctionFrame _ _ =>
              bind (eval fuel fr value s) (fun v s => Ok (Returned v, fr) s)
          end
      | Assign target value =>
          bind (eval fuel fr value s) (fun v s =>
            let '(fr, s) := store fr target v s in Ok (Normal, fr) s)
      | While test body =>
          bind (eval fuel fr test s) (fun c s =>
            if truthy c then
              bind (exec_block fuel fr body s) (fun r s =>
                match r with
                | (Normal, fr) => exec_stmt fuel fr (While test body) s
                | (Returned v, fr) => Ok (Returned v, fr) s
                end)
            else Ok (Normal, fr) s)
      | If test body orelse =>
          bind (eval fuel fr test s) (fun c s =>
            exec_block fuel fr (if truthy c then body else orelse) s)
      | Raise exc =>
          bind (eval fuel fr exc s) (fun v s =>
            match v with
            | VClass name => Exc (new_exception name "") s
            | VException e => Exc e s
            | _ => Exc (new_exception "TypeError" "exceptions must derive from BaseException") s
            end)
      | Expr value =>
          bind (eval fuel fr value s) (fun _ s => Ok (Normal, fr) s)
      | Pass => Ok (Normal, fr) s
      end
  end
with exec_block (fuel : nat) (fr : frame) (body : list stmt) (s : state) {struct fuel}
  : outcome (signal * frame) :=
  match fuel with
  | O => OutOfFuel
  | S fuel =>
      match body with
      | [] => Ok (Normal, fr) s
      | st :: rest =>
          bind (exec_stmt fuel fr st s) (fun r s =>
            match r with
            | (Normal, fr) => exec_block fuel fr rest s
            | (Returned v, fr) => Ok (Returned v, fr) s
            end)
      end
  end.

(** [exec(code, {}, local_vars)]: empty globals, a separate locals
    dictionary. *)
Definition exec_sandboxed (fuel : nat) (module : list stmt) : outcome (signal * frame) :=
  exec_block fuel ModuleFrame module (State ∅ (Some ∅) "" 0).

(** The same source run as a program: one dictionary for both. *)
Definition exec_as_program (fuel : nat) (module : list stmt) : outcome (signal * frame) :=
  exec_block fuel ModuleFrame module (State ∅ None "" 0).

(** The tree [ast.parse] builds for a source of the fragment. *)
Definition leaf (class : string) : ast.AST := ast.Node class [].

Definition operator_class (op : operator) : string :=
  match op with Add => "Add" | Sub => "Sub" | Mult => "Mult" end.

Definition cmpop_class (op : cmpop) : string :=
  match op with Eq => "Eq" | Lt => "Lt" | LtE => "LtE" end.

Fixpoint reify_expr (e : expr) : ast.AST :=
  match e with
  | Constant _ => leaf "Constant"
  | Name _ => ast.Node "Name" [("ctx", [leaf "Load"])]
  | BinOp lhs op rhs =>
      ast.Node "BinOp" [("left", [reify_expr lhs]); ("op", [leaf (operator_class op)]);
                        ("right", [reify_expr rhs])]
  | Compare lhs op rhs =>
      ast.Node "Compare" [("left", [reify_expr lhs]); ("ops", [leaf (cmpop_class op)]);
                          ("comparators", [reify_expr rhs])]
  | Call func args =>
      ast.Node "Call" [("func", [reify_expr func]); ("args", map reify_expr args);
                       ("keywords", [])]
  end.

Fixpoint reify_stmt (st : stmt) : ast.AST :=
  match st with
  | FunctionDef _ params body =>
      ast.Node "FunctionDef"
        [("args", [ast.Node "arguments"
                     [("posonlyargs", []); ("args", map (fun _ => leaf "arg") params);
                      ("kwonlyargs", []); ("kw_defaults", []); ("defaults", [])]]);
         ("body", map reify_stmt body); ("decorator_list", []); ("returns", [])]
  | Return value => ast.Node "Return" [("value", [reify_expr value])]
  | Assign _ value =>
      ast.Node "Assign" [("targets", [ast.Node "Name" [("ctx", [leaf "Store"])]]);
                         ("value", [reify_expr value])]
  | While test body =>
      ast.Node "While" [("test", [reify_expr test]); ("body", map reify_stmt body);
                        ("orelse", [])]
  | If test body orelse =>
      ast.Node "If" [("test", [reify_expr test]); ("body", map reify_stmt body);
                     ("orelse", map reify_stmt orelse)]
  | Raise exc => ast.Node "Raise" [("exc", [reify_expr exc]); ("cause", [])]
  | Expr value => ast.Node "Expr" [("value", [reify_expr value])]
  | Pass => leaf "Pass"
  end.

Definition reify (module : list stmt) : ast.AST :=
  ast.Node "Module" [("body", map reify_stmt module); ("type_ignores", [])].

End Py.

(** [match x:] with the arms [case 1: pass] and [case _: pass], as
    [ast.parse] reads it. *)
Definition two_arm_match : ast.AST :=
  ast.Node "Module"
    [("body",
      [ast.Node "Match"
         [("subject", [ast.Node "Name" [("ctx", [ast.Node "Load" []])]]);
          ("cases",
           [ast.Node "match_case"
              [("pattern", [ast.Node "MatchValue" [("value", [ast.Node "Constant" []])]]);
               ("guard", []);
               ("body", [ast.Node "Pass" []])];
            ast.Node "match_case"
              [("pattern", [ast.Node "MatchAs" [("pattern", [])]]);
               ("guard", []);
               ("body", [ast.Node "Pass" []])]])]]);
     ("type_ignores", [])].

(** ** A reference runtime

    CPython (3.10 and 3.11, where [ast.Match] exists and a NUL
    character in source is a [ValueError]) restricted to a corpus of
    sources.  Each source of the fragment is listed with the program
    the parser reads in it and is run by the interpreter above; the
    others are listed with what the parser and the run make of them.
    Any other text is rejected. *)

Module Reference.

Inductive reading : Type :=
| Program (module : list Py.stmt)
| Malformed (message : string) (line offset : Z)
| TooDeep
| Beyond (tree : ast.AST) (run : exec_behaviour).
    (* a source outside the fragment: the tree the parser builds and
       what its run shows *)

Record sample : Type := Sample { text : string; parsed : reading }.

(** Scenario A of the specification. *)
Definition mismatched_addition : sample :=
  Sample "x = 1 + '5'"
    (Program [Py.Assign "x" (Py.BinOp (Py.Constant (Py.CInt 1)) Py.Add
                                       (Py.Constant (Py.CStr "5")))]).

(** The first scenario of [main()]. *)
Definition process_data : sample :=
  Sample "
def process_data(value):
    return value + '5'  # Attempting to add string to non-string

process_data(10)
"
    (Program [Py.FunctionDef "process_data" ["value"]
                [Py.Return (Py.BinOp (Py.Name "value") Py.Add (Py.Constant (Py.CStr "5")))];
              Py.Expr (Py.Call (Py.Name "process_data") [Py.Constant (Py.CInt 10)])]).

Definition leave : sample :=
  Sample "raise SystemExit" (Program [Py.Raise (Py.Name "SystemExit")]).

Definition spin : sample :=
  Sample "while True:
    pass"
    (Program [Py.While (Py.Constant (Py.CBool true)) [Py.Pass]]).

Definition countdown : sample :=
  Sample "n = 10
while 0 < n:
    n = n - 1"
    (Program [Py.Assign "n" (Py.Constant (Py.CInt 10));
              Py.While (Py.Compare (Py.Constant (Py.CInt 0)) Py.Lt (Py.Name "n"))
                [Py.Assign "n" (Py.BinOp (Py.Name "n") Py.Sub (Py.Constant (Py.CInt 1)))]]).

Definition greeting : sample :=
  Sample "print('hello')"
    (Program [Py.Expr (Py.Call (Py.Name "print") [Py.Constant (Py.CStr "hello")])]).

Definition print_then_fail : sample :=
  Sample "print('partial')
x = 1 + '5'"
    (Program [Py.Expr (Py.Call (Py.Name "print") [Py.Constant (Py.CStr "partial")]);
              Py.Assign "x" (Py.BinOp (Py.Constant (Py.CInt 1)) Py.Add
                                       (Py.Constant (Py.CStr "5")))]).

Definition fact (n : Z) : list Py.stmt :=
  [Py.FunctionDef "fact" ["n"]
     [Py.If (Py.Compare (Py.Name "n") Py.LtE (Py.Constant (Py.CInt 1)))
        [Py.Return (Py.Constant (Py.CInt 1))] [];
      Py.Return (Py.BinOp (Py.Name "n") Py.Mult
                   (Py.Call (Py.Name "fact")
                      [Py.BinOp (Py.Name "n") Py.Sub (Py.Constant (Py.CInt 1))]))];
   Py.Expr (Py.Call (Py.Name "print") [Py.Call (Py.Name "fact") [Py.Constant (Py.CInt n)]])].

Definition factorial_of_5 : sample :=
  Sample "def fact(n):
    if n <= 1:
        return 1
    return n * fact(n - 1)
print(fact(5))"
    (Program (fact 5)).

Definition factorial_of_1 : sample :=
  Sample "def fact(n):
    if n <= 1:
        return 1
    return n * fact(n - 1)
print(fact(1))"
    (Program (fact 1)).

Definition missing_colon : sample :=
  Sample "def broken_function()" (Malformed "expected ':'" 1 22).

(** [1+1+...+1] with a hundred thousand additions: the parser reads it,
    but building the tree exceeds the recursion limit. *)
Definition long_sum : string := N.iter 100000 (fun rest => "1+" +:+ rest) "1".

Definition deep_sum : sample := Sample long_sum TooDeep.

(** A [match] statement on a name that is not bound. *)
Definition match_statement : sample :=
  Sample "match x:
    case 1:
        pass
    case _:
        pass"
    (Beyond two_arm_match
       (Faults (new_exception "NameError" "name 'x' is not defined") "" "" 1)).

Definition corpus : list sample :=
  [mismatched_addition; process_data; leave; spin; countdown; greeting;
   print_then_fail; factorial_of_5; factorial_of_1; missing_colon; match_statement;
   deep_sum].

Definition lookup_source (code : string) : reading :=
  match List.find (fun s => String.eqb (text s) code) corpus with
  | Some s => parsed s
  | None => Malformed "invalid syntax" 1 1
  end.

Definition has_nul (code : string) : bool :=
  existsb (Ascii.eqb "000"%char) (list_ascii_of_string code).

Definition null_bytes : pyobj :=
  new_exception "ValueError" "source code string cannot contain null bytes".

(** The [SyntaxError] the compiler raises, as [str()] shows it. *)
Definition syntax_error (filename message : string) (line offset : Z) : pyobj :=
  PyObj (builtin_mro "SyntaxError")
        (message +:+ " (" +:+ filename +:+ ", line "
           +:+ NilZero.string_of_int (Z.to_int line) +:+ ")")
        (Some line) (Some offset).

Definition too_deep (stage : string) : pyobj :=
  new_exception "RecursionError" ("maximum recursion depth exceeded during " +:+ stage).

Definition fuel : nat := 1000.

(** No source of the corpus is stuck (lemma [corpus_in_fragment]); the
    one that runs out of fuel runs out of any amount (lemma
    [spin_forever]). *)
Definition observe (r : Py.outcome (Py.signal * Py.frame)) : exec_behaviour :=
  match r with
  | Py.Ok _ s => Completes (Py.out s) "" (Py.ticks s)
  | Py.Exc e s => Faults e (Py.out s) "" (Py.ticks s)
  | Py.OutOfFuel | Py.Stuck => Hangs
  end.

Definition cpython : Python := {|
  ast_parse code :=
    if has_nul code then ParseFault null_bytes
    else match lookup_source code with
         | Program module => Parsed (Py.reify module)
         | Malformed message line offset =>
             ParseFault (syntax_error "<unknown>" message line offset)
         | TooDeep => ParseFault (too_deep "ast construction")
         | Beyond tree _ => Parsed tree
         end;
  exec _ code :=
    if has_nul code then Faults null_bytes "" "" 0
    else match lookup_source code with
         | Program module => observe (Py.exec_sandboxed fuel module)
         | Malformed message line offset =>
             Faults (syntax_error "<string>" message line offset) "" "" 0
         | TooDeep => Faults (too_deep "compilation") "" "" 0
         | Beyond _ run => run
         end;
  format_exception e :=
    "Traceback (most recent call last):" +:+ newline
      +:+ type_name e +:+ ": " +:+ obj_str e +:+ newline
|}.

Definition inspector : CodeInspector := {| verbose := true |}.

(** A fresh process: the clock at zero, nothing written yet, no fault
    being handled. *)
Definition boot : world := World 0 "" "" None.

End Reference.

(** ** Counting by structure, for the statements about complexity *)

Definition indicator (classes : list string) (node : ast.AST) : Z :=
  if ast.isinstance node classes then 1 else 0.

(** The nodes of a tree whose class is among [classes]. *)
Definition count_nodes (classes : list string) (tree : ast.AST) : Z :=
  ast.tree_sum (indicator classes) tree.

(** What one boolean combination adds: its operands less one. *)
Definition boolop_weight (node : ast.AST) : Z :=
  if ast.isinstance node ["BoolOp"]
  then Z.of_nat (length (ast.field "values" node)) - 1
  else 0.

Definition boolop_excess (tree : ast.AST) : Z := ast.tree_sum boolop_weight tree.

Definition decision_weight (node : ast.AST) : Z :=
  indicator branching node + boolop_weight node.

(** The score as the specification words it: the baseline path, one
    for each conditional, loop, exception-handling clause and
    pattern-match arm, and the operands less one of each boolean
    combination. *)
Definition spec_decision_points : list string :=
  ["If"; "While"; "For"; "AsyncFor"; "ExceptHandler"; "match_case"].

Definition spec_complexity (tree : ast.AST) : Z :=
  1 + count_nodes spec_decision_points tree + boolop_excess tree.

(** The conditional, loop and exception constructs. *)
Definition constructs : list string :=
  ["If"; "While"; "For"; "AsyncFor"; "Try"; "ExceptHandler"].

(** A tree is straight-line when it has no branching node and no
    boolean combination. *)
Definition straight_line (tree : ast.AST) : bool :=
  forallb (fun node => negb (ast.isinstance node ("BoolOp" :: branching))) (ast.walk tree).

(** The parser gives every boolean combination at least two operands. *)
Definition boolop_ok (node : ast.AST) : bool :=
  if ast.isinstance node ["BoolOp"]
  then (2 <=? Z.of_nat (length (ast.field "values" node)))
  else true.

Definition well_formed (tree : ast.AST) : bool := forallb boolop_ok (ast.walk tree).

(** The names an expression or a statement reads. *)
Module Names.

Fixpoint read_by_expr (e : Py.expr) : list string :=
  match e with
  | Py.Constant _ => []
  | Py.Name id => [id]
  | Py.BinOp lhs _ rhs => read_by_expr lhs ++ read_by_expr rhs
  | Py.Compare lhs _ rhs => read_by_expr lhs ++ read_by_expr rhs
  | Py.Call func args => read_by_expr func ++ concat (map read_by_expr args)
  end.

Fixpoint read_by (st : Py.stmt) : list string :=
  match st with
  | Py.FunctionDef _ _ body => concat (map read_by body)
  | Py.Return value => read_by_expr value
  | Py.Assign _ value => read_by_expr value
  | Py.While test body => read_by_expr test ++ concat (map read_by body)
  | Py.If test body orelse =>
      read_by_expr test ++ concat (map read_by body) ++ concat (map read_by orelse)
  | Py.Raise exc => read_by_expr exc
  | Py.Expr value => read_by_expr value
  | Py.Pass => []
  end.

(** A module has a function whose body reads a name that the module's
    own top level binds. *)
Definition function_reads_module_name (module : list Py.stmt) (id : string) : bool :=
  bool_decide (id ∈ concat (map Py.assigned module))
  && existsb (fun st =>
       match st with
       | Py.FunctionDef _ params body =>
           bool_decide (id ∈ concat (map read_by body))
           && negb (bool_decide (id ∈ params ++ concat (map Py.assigned body)))
       | _ => false
       end) module.

End Names.

(** ** Values the statements about the inspector name *)

Definition generic_suggestion : gmap string string :=
  {[ "fix" := "Review and debug code";
     "example" := "Carefully examine the code context and error message";
     "code_hint" := "# Requires manual inspection" ]}.

(** The classification of an object, given the traceback text. *)
Definition classification_of (error : pyobj) (traceback : string) : gmap string string :=
  let error_info :=
    default (taxonomy "Unknown" "low" "Unexpected error occurred.")
            (ERROR_TYPES !! type_name error) in
  <["type" := type_name error]>
  (<["message" := obj_str error]>
   (<["category" := default "" (error_info !! "category")]>
    (<["severity" := default "" (error_info !! "severity")]>
     (<["general_advice" := default "" (error_info !! "general_advice")]>
      {[ "traceback" := traceback ]})))).

(** What the runtime phase hands to the classifier for a fault with
    this message: a string. *)
Definition unknown_classification (message traceback : string) : gmap string string :=
  <["type" := "str"]>
  (<["message" := message]>
   (<["category" := "Unknown"]>
    (<["severity" := "low"]>
     (<["general_advice" := "Unexpected error occurred."]>
      {[ "traceback" := traceback ]})))).

(** What the static phase of an inspection comes to: the section of
    the report, or the fault that leaves the inspection. *)
Definition static_outcome {python : Python} (code : string) : static_section + pyobj :=
  match ast_parse code with
  | Parsed tree =>
      inl (Analysis (count_instances ["FunctionDef"] tree)
                    (count_instances ["ClassDef"] tree)
                    (count_instances ["Import"; "ImportFrom"] tree)
                    (_calculate_complexity tree))
  | ParseFault e =>
      if isinstance e "SyntaxError"
      then inl (SyntaxFault (obj_str e) (obj_lineno e) (obj_offset e))
      else if isinstance e "Exception"
      then inl (StaticFallback (classification_of e (format_exception e)))
      else inr e
  end.

(** A run of a block by [exec] with a separate locals dictionary never
    writes the globals dictionary: it is as empty at every call as it
    was at the start. *)
Definition sandboxed (g : gmap string Py.value) (s : Py.state) : Prop :=
  Py.globals s = g /\ is_Some (Py.locals s).

Definition keeps {A : Type} (g : gmap string Py.value) (r : Py.outcome A) : Prop :=
  match r with
  | Py.Ok _ s | Py.Exc _ s => sandboxed g s
  | _ => True
  end.

(** The state of the same run when the module's dictionary is the
    globals dictionary. *)
Definition as_program (s : Py.state) : Py.state :=
  match Py.locals s with
  | Some module_names => Py.State module_names None (Py.out s) (Py.ticks s)
  | None => s
  end.

(** No name of the module's dictionary is also a built-in. *)
Definition no_shadow (s : Py.state) : Prop :=
  forall module_names id,
    Py.locals s = Some module_names -> is_Some (module_names !! id) -> Py.builtins !! id = None.

Definition fresh_names (names : list string) : Prop :=
  Forall (fun id => Py.builtins !! id = None) names.

Definition same_kind (fr fr' : Py.frame) : Prop :=
  match fr, fr' with
  | Py.ModuleFrame, Py.ModuleFrame => True
  | Py.FunctionFrame _ _, Py.FunctionFrame _ _ => True
  | _, _ => False
  end.

(** A [NameError] of the sandbox's own: the name is in the module's
    dictionary, where a function body does not look. *)
Definition hidden (e : pyobj) (s : Py.state) : Prop :=
  exists id module_names,
    e = Py.name_error id /\ Py.locals s = Some module_names /\ is_Some (module_names !! id).

(** The run in the sandbox against the run as a program: the same
    answer in mirrored states, or a [NameError] of the sandbox's own. *)
Definition mirrors {A : Type} (post : A -> Prop) (sandbox program : Py.outcome A) : Prop :=
  match sandbox, program with
  | Py.Ok a s, Py.Ok a' s' =>
      a' = a /\ s' = as_program s /\ sandboxed ∅ s /\ no_shadow s /\ post a
  | Py.Exc e s, Py.Exc e' s' => (e' = e /\ s' = as_program s) \/ hidden e s
  | Py.Exc e s, _ => hidden e s
  | Py.OutOfFuel, Py.OutOfFuel => True
  | Py.Stuck, Py.Stuck => True
  | _, _ => False
  end.

(** ** Values the further statements name *)

(** The kinds for which [analyze_and_suggest_fix] has a suggestion of
    their own. *)
Definition specific_kinds : list string :=
  ["TypeError"; "ValueError"; "IndexError"; "KeyError"; "ZeroDivisionError"].

Definition classification_keys : gset string :=
  {[ "type"; "message"; "category"; "severity"; "general_advice"; "traceback" ]}.

Definition suggestion_keys : gset string := {[ "fix"; "example"; "code_hint" ]}.

(** ** [DataProcessor.identify_column_entries] of [analytics/col_analysis.py] *)

Module col_analysis.

(** One turn of the loop over [column_data]; the method reads nothing
    of [self].  [isinstance] follows the classes by name: [int],
    [float], [str], [bool], and [Timestamp] and [datetime64] for
    [pd.Timestamp] and [np.datetime64]. *)
Definition identify_step (entries_with_type : list (pyobj * string)) (value : pyobj)
  : list (pyobj * string) :=
  let value_type := type_name value in
  if isinstance value "int" || isinstance value "float"
  then entries_with_type ++ [(value, "numeric")]
  else if isinstance value "str"
  then entries_with_type ++ [(value, "string")]
  else if isinstance value "bool"
  then entries_with_type ++ [(value, "boolean")]
  else if isinstance value "Timestamp" || isinstance value "datetime64"
  then entries_with_type ++ [(value, "date")]
  else entries_with_type ++ [(value, "unknown")].

Definition identify_column_entries (column_data : list pyobj) : list (pyobj * string) :=
  fold_left identify_step column_data [].

End col_analysis.

(** A Python [bool]: its class inherits from [int]. *)
Definition py_bool (b : bool) : pyobj :=
  PyObj ["bool"; "int"; "object"] (if b then "True" else "False") None None.

Definition py_str (s : string) : pyobj := PyObj ["str"; "object"] s None None.

(** ** [main] *)

(** [json.dumps(result, indent=indent)].  A report holds nothing but
    dictionaries with string keys, lists, strings, numbers, booleans
    and [None], which [json.dumps] serialises without a fault; the
    text it gives is left to the runtime. *)
Class Json : Type := { json_dumps : report -> N -> string }.

(** [print(text)]: the text and a line end, on whatever [sys.stdout]
    names. *)
Definition print (text : string) : M unit := fun w =>
  Returns tt (World (clock w) (sys_stdout w +:+ text +:+ newline) (sys_stderr w) (exc_info w)).

(** [enumerate(items, start)] *)
Fixpoint enumerate {A : Type} (items : list A) (start : Z) : list (Z * A) :=
  match items with
  | [] => []
  | item :: items => (start, item) :: enumerate items (start + 1)
  end.

(** [for item in items: body item] *)
Fixpoint for_each {A : Type} (items : list A) (body : A -> M unit) : M unit :=
  match items with
  | [] => mret tt
  | item :: items => _ ← body item; for_each items body
  end.

(** [f"{i}"] for an integer. *)
Definition decimal (i : Z) : string := NilZero.string_of_int (Z.to_int i).

Definition error_scenarios : list string :=
  [ (* 1. Type Error *)
    "
def process_data(value):
    return value + '5'  # Attempting to add string to non-string

process_data(10)
";
    (* 2. Index Error *)
    "
numbers = [1, 2, 3]
print(numbers[5])  # Accessing out-of-bounds index
";
    (* 3. Zero Division *)
    "
def divide_numbers(a, b):
    return a / b

print(divide_numbers(10, 0))  # Division by zero
";
    (* 4. Key Error *)
    "
my_dict = {'a': 1, 'b': 2}
print(my_dict['c'])  # Accessing non-existent key
";
    (* 5. Syntax Error *)
    "
def broken_function()
    print(" +:+ dquote +:+ "This function has a syntax error" +:+ dquote +:+ ")
";
    (* 6. Successful Code *)
    "
def factorial(n):
    if n < 0:
        raise ValueError(" +:+ dquote +:+ "Factorial is not defined for negative numbers"
      +:+ dquote +:+ ")
    result = 1
    for i in range(1, n + 1):
        result *= i
    return result

print(factorial(5))
" ].

Section Main.
Context {python : Python} {json : Json}.

(** The body of the loop of [main]. *)
Definition inspect_scenario (inspector : CodeInspector) (numbered : Z * string) : M unit :=
  let '(i, scenario) := numbered in
  _ ← print (newline +:+ "--- Code Scenario " +:+ decimal i +:+ " ---");
  _ ← print "Code:";
  _ ← print scenario;
  _ ← print (newline +:+ "Inspection Result:");
  (* Perform comprehensive inspection *)
  result ← comprehensive_inspection inspector scenario;
  (* Pretty print the result *)
  print (json_dumps result 2).

Definition main : M unit :=
  let inspector := {| verbose := true |} in
  for_each (enumerate error_scenarios 1) (inspect_scenario inspector).

(** What one turn of the loop writes. *)
Definition scenario_block (i : Z) (scenario : string) (result : report) : string :=
  newline +:+ "--- Code Scenario " +:+ decimal i +:+ " ---" +:+ newline
  +:+ "Code:" +:+ newline
  +:+ scenario +:+ newline
  +:+ newline +:+ "Inspection Result:" +:+ newline
  +:+ json_dumps result 2 +:+ newline.

Fixpoint blocks (i : Z) (inspected : list (string * report)) : string :=
  match inspected with
  | [] => ""
  | (scenario, result) :: inspected =>
      scenario_block i scenario result +:+ blocks (i + 1) inspected
  end.

End Main.

(** * Properties *)

(** ** The tree walk *)

Section Walk.
Variable weight : ast.AST -> Z.

Lemma size_children node :
  ast.size node = S (sum_list (map ast.size (ast.iter_child_nodes node))).
Proof.
  destruct node as [class fields]. unfold ast.iter_child_nodes. simpl. f_equal.
  induction fields as [|[name nodes] fields IH]; simpl; [done|].
  rewrite map_app, sum_list_with_app. by rewrite IH.
Qed.

Lemma foldr_add_app (xs ys : list Z) :
  foldr Z.add 0 (xs ++ ys) = foldr Z.add 0 xs + foldr Z.add 0 ys.
Proof. induction xs as [|x xs IH]; simpl; lia. Qed.

Lemma tree_sum_children node :
  ast.tree_sum weight node
  = weight node + foldr Z.add 0 (map (ast.tree_sum weight) (ast.iter_child_nodes node)).
Proof.
  destruct node as [class fields]. unfold ast.iter_child_nodes. simpl. f_equal.
  induction fields as [|[name nodes] fields IH]; simpl; [done|].
  rewrite map_app, foldr_add_app. by rewrite IH.
Qed.

(** With fuel for every node waiting in the queue or below it, the
    walk visits each of them exactly once. *)
Lemma walk_queue_complete fuel todo :
  (sum_list (map ast.size todo) <= fuel)%nat ->
  foldr Z.add 0 (map weight (ast.walk_queue fuel todo))
  = foldr Z.add 0 (map (ast.tree_sum weight) todo).
Proof.
  revert todo. induction fuel as [|fuel IH]; intros [|node todo] Hfuel; simpl in *; try done.
  - pose proof (size_children node). lia.
  - rewrite IH.
    + rewrite map_app, foldr_add_app, (tree_sum_children node). lia.
    + rewrite map_app, sum_list_with_app. pose proof (size_children node). lia.
Qed.

Lemma walk_sum tree :
  foldr Z.add 0 (map weight (ast.walk tree)) = ast.tree_sum weight tree.
Proof.
  unfold ast.walk. rewrite walk_queue_complete; simpl; lia.
Qed.
End Walk.

(** ** Cyclomatic complexity *)

Lemma complexity_step_weight complexity node :
  complexity_step complexity node = complexity + decision_weight node.
Proof.
  unfold complexity_step, decision_weight, indicator, boolop_weight.
  destruct (ast.isinstance node branching), (ast.isinstance node ["BoolOp"]); lia.
Qed.

Lemma fold_complexity_step nodes complexity :
  fold_left complexity_step nodes complexity
  = complexity + foldr Z.add 0 (map decision_weight nodes).
Proof.
  revert complexity. induction nodes as [|node nodes IH]; intros complexity; simpl; [lia|].
  rewrite IH, complexity_step_weight. lia.
Qed.

Lemma complexity_by_structure tree :
  _calculate_complexity tree = 1 + ast.tree_sum decision_weight tree.
Proof.
  unfold _calculate_complexity. by rewrite fold_complexity_step, walk_sum.
Qed.

Lemma tree_sum_plus f g tree :
  ast.tree_sum (fun node => f node + g node) tree = ast.tree_sum f tree + ast.tree_sum g tree.
Proof.
  rewrite <- !walk_sum. induction (ast.walk tree) as [|node nodes IH]; simpl; lia.
Qed.

Lemma straight_line_weight tree :
  straight_line tree = true -> ast.tree_sum decision_weight tree = 0.
Proof.
  unfold straight_line. rewrite <- walk_sum.
  induction (ast.walk tree) as [|node nodes IH]; simpl; [done|].
  intros [Hnode Hrest]%andb_prop. apply IH in Hrest.
  assert (decision_weight node = 0); [|lia].
  revert Hnode. unfold decision_weight, indicator, boolop_weight, ast.isinstance.
  rewrite negb_true_iff, bool_decide_eq_false, not_elem_of_cons.
  intros [Hbool Hbranch].
  rewrite (bool_decide_eq_false_2 _ Hbranch), (bool_decide_eq_false_2 (_ ∈ ["BoolOp"])); [done|].
  by rewrite list_elem_of_singleton.
Qed.

Lemma tree_sum_nonneg tree :
  well_formed tree = true -> 0 <= ast.tree_sum decision_weight tree.
Proof.
  unfold well_formed. rewrite <- walk_sum.
  induction (ast.walk tree) as [|node nodes IH]; simpl; [done|].
  intros [Hnode Hrest]%andb_prop. apply IH in Hrest.
  assert (0 <= decision_weight node); [|lia].
  unfold decision_weight, indicator, boolop_weight, boolop_ok in *.
  destruct (ast.isinstance node branching), (ast.isinstance node ["BoolOp"]); lia.
Qed.

Lemma forest_sum_nonneg trees :
  forallb well_formed trees = true ->
  0 <= foldr Z.add 0 (map (ast.tree_sum decision_weight) trees).
Proof.
  induction trees as [|tree trees IH]; simpl; [done|].
  intros [Htree Hrest]%andb_prop. apply tree_sum_nonneg in Htree. apply IH in Hrest. lia.
Qed.

Lemma foldr_add_Permutation (xs ys : list Z) :
  xs ≡ₚ ys -> foldr Z.add 0 xs = foldr Z.add 0 ys.
Proof. induction 1; simpl; lia. Qed.

Lemma children_of_frame class before name nodes after :
  ast.iter_child_nodes (ast.Node class (before ++ (name, nodes) :: after))
  = concat (map snd before) ++ nodes ++ concat (map snd after).
Proof. unfold ast.iter_child_nodes. simpl. by rewrite map_app, concat_app. Qed.

Lemma field_length_frame name' before name (nodes nodes' : list ast.AST) after class :
  length nodes = length nodes' ->
  length (ast.field name' (ast.Node class (before ++ (name, nodes) :: after)))
  = length (ast.field name' (ast.Node class (before ++ (name, nodes') :: after))).
Proof.
  intros Hlen. unfold ast.field. simpl.
  induction before as [|[n ns] before IH]; simpl.
  - by destruct (String.eqb name name').
  - by destruct (String.eqb n name').
Qed.

(** The weight of a node does not change when one of its children is
    replaced by another node. *)
Lemma decision_weight_frame class before name pre x y post after :
  decision_weight (ast.Node class (before ++ (name, pre ++ x :: post) :: after))
  = decision_weight (ast.Node class (before ++ (name, pre ++ y :: post) :: after)).
Proof.
  unfold decision_weight, indicator, boolop_weight, ast.isinstance. simpl.
  rewrite (field_length_frame "values" before name (pre ++ x :: post) (pre ++ y :: post));
    [done|].
  by rewrite !length_app.
Qed.

Lemma tree_sum_plug c t t' :
  ast.tree_sum decision_weight (ast.plug c t') - ast.tree_sum decision_weight (ast.plug c t)
  = ast.tree_sum decision_weight t' - ast.tree_sum decision_weight t.
Proof.
  induction c as [|class before name pre inner IH post after]; cbn [ast.plug]; [done|].
  rewrite !(tree_sum_children _ (ast.Node class _)), !children_of_frame.
  rewrite (decision_weight_frame class before name pre (ast.plug inner t') (ast.plug inner t)).
  rewrite !map_app, !foldr_add_app. cbn [map foldr]. lia.
Qed.

Lemma construct_weight k fields :
  k ∈ constructs -> decision_weight (ast.Node k fields) = 1.
Proof.
  unfold constructs. rewrite !elem_of_cons, elem_of_nil.
  intros [->|[->|[->|[->|[->|[->|[]]]]]]]; reflexivity.
Qed.

Lemma weight_of_other_class p fields fields' :
  p <> "BoolOp" ->
  decision_weight (ast.Node p fields) = decision_weight (ast.Node p fields').
Proof.
  intros Hp. unfold decision_weight, indicator, boolop_weight, ast.isinstance. simpl.
  rewrite !(bool_decide_eq_false_2 (p ∈ ["BoolOp"])); [done|].
  by rewrite list_elem_of_singleton.
Qed.

(** Enclosing the statements [seg] of a body in a new construct (or
    inserting one, when [seg] is empty) adds the construct's own
    decision point and whatever its new parts hold. *)
Lemma enclose_adds c p before name pre seg post after k fields extra :
  p <> "BoolOp" ->
  k ∈ constructs ->
  ast.iter_child_nodes (ast.Node k fields) ≡ₚ seg ++ extra ->
  _calculate_complexity
    (ast.plug c (ast.Node p (before ++ (name, pre ++ ast.Node k fields :: post) :: after)))
  = _calculate_complexity
      (ast.plug c (ast.Node p (before ++ (name, pre ++ seg ++ post) :: after)))
    + 1 + foldr Z.add 0 (map (ast.tree_sum decision_weight) extra).
Proof.
  intros Hp Hk Hchildren. rewrite !complexity_by_structure.
  pose proof (tree_sum_plug c
    (ast.Node p (before ++ (name, pre ++ seg ++ post) :: after))
    (ast.Node p (before ++ (name, pre ++ ast.Node k fields :: post) :: after))) as Hplug.
  rewrite !(tree_sum_children _ (ast.Node p _)), !children_of_frame in Hplug.
  rewrite (weight_of_other_class p _ (before ++ (name, pre ++ seg ++ post) :: after) Hp) in Hplug.
  rewrite !map_app, !foldr_add_app in Hplug. cbn [map foldr] in Hplug.
  rewrite (tree_sum_children _ (ast.Node k fields)), (construct_weight k fields Hk) in Hplug.
  rewrite (foldr_add_Permutation _ _ (Permutation_map (ast.tree_sum decision_weight) Hchildren))
    in Hplug.
  rewrite map_app, foldr_add_app in Hplug. lia.
Qed.

(** The score by structure: one, plus the number of branching nodes,
    plus the operands less one of every boolean combination. *)
Lemma complexity_formula tree :
  _calculate_complexity tree = 1 + count_nodes branching tree + boolop_excess tree.
Proof.
  rewrite complexity_by_structure. unfold count_nodes, boolop_excess.
  rewrite <- Z.add_assoc, <- tree_sum_plus. reflexivity.
Qed.



(** ** The monad *)

Lemma set_exc_info_restore w e : set_exc_info (exc_info w) (set_exc_info e w) = w.
Proof. by destruct w. Qed.

Lemma try_except_Returns {A} (body : M A) cls handler w a w' :
  body w = Returns a w' -> try_except body cls handler w = Returns a w'.
Proof. unfold try_except. by intros ->. Qed.

Lemma try_except_Hangs {A} (body : M A) cls handler w :
  body w = NeverReturns -> try_except body cls handler w = NeverReturns.
Proof. unfold try_except. by intros ->. Qed.

Lemma try_except_passes {A} (body : M A) cls handler w e w' :
  body w = Raises e w' -> isinstance e cls = false ->
  try_except body cls handler w = Raises e w'.
Proof. unfold try_except. by intros -> ->. Qed.

Lemma try_except_handles {A} (body : M A) cls handler w e w' a w'' :
  body w = Raises e w' -> isinstance e cls = true ->
  handler e (set_exc_info (Some e) w') = Returns a w'' ->
  try_except body cls handler w = Returns a (set_exc_info (exc_info w') w'').
Proof. unfold try_except. by intros -> -> ->. Qed.

Lemma bind_Returns {A B} (m : M A) (k : A -> M B) w a w' :
  m w = Returns a w' -> (m ≫= k) w = k a w'.
Proof. unfold mbind, M_bind. by intros ->. Qed.

Lemma bind_Raises {A B} (m : M A) (k : A -> M B) w e w' :
  m w = Raises e w' -> (m ≫= k) w = Raises e w'.
Proof. unfold mbind, M_bind. by intros ->. Qed.

Lemma bind_Hangs {A B} (m : M A) (k : A -> M B) w :
  m w = NeverReturns -> (m ≫= k) w = NeverReturns.
Proof. unfold mbind, M_bind. by intros ->. Qed.

(** ** The taxonomy and [classify_error] *)

Lemma ERROR_TYPES_entries kind entry :
  ERROR_TYPES !! kind = Some entry ->
  exists category severity general_advice, entry = taxonomy category severity general_advice.
Proof.
  unfold ERROR_TYPES. intros Hin%elem_of_list_to_map_2.
  repeat (apply elem_of_cons in Hin as [Hin|Hin]; [inversion Hin; eauto|]).
  by apply elem_of_nil in Hin.
Qed.

Lemma getitem_taxonomy category severity general_advice w :
  getitem (taxonomy category severity general_advice) "category" w = Returns category w
  /\ getitem (taxonomy category severity general_advice) "severity" w = Returns severity w
  /\ getitem (taxonomy category severity general_advice) "general_advice" w
     = Returns general_advice w.
Proof. repeat split. Qed.

Lemma getitem_raw_error kind message traceback w :
  getitem (<["type" := kind]> (<["message" := message]> {[ "traceback" := traceback ]}))
          "type" w = Returns kind w
  /\ getitem (<["type" := kind]> (<["message" := message]> {[ "traceback" := traceback ]}))
             "message" w = Returns message w.
Proof. by split. Qed.

Section Classification.
Context {python : Python}.

Lemma classify_error_value error w :
  classify_error error w = Returns (classification_of error (current_traceback w)) w.
Proof.
  unfold classify_error, classification_of.
  assert (exists category severity general_advice,
            default (taxonomy "Unknown" "low" "Unexpected error occurred.")
                    (ERROR_TYPES !! type_name error)
            = taxonomy category severity general_advice)
    as (category & severity & general_advice & ->).
  { destruct (ERROR_TYPES !! type_name error) as [entry|] eqn:Hlookup; simpl.
    - by apply ERROR_TYPES_entries in Hlookup.
    - by eexists _, _, _. }
  destruct (getitem_taxonomy category severity general_advice w) as (Hc & Hs & Hg).
  rewrite (bind_Returns _ _ _ _ _ Hc), (bind_Returns _ _ _ _ _ Hs), (bind_Returns _ _ _ _ _ Hg).
  reflexivity.
Qed.

Lemma classification_of_fallback error traceback :
  ERROR_TYPES !! type_name error = None ->
  classification_of error traceback !! "category" = Some "Unknown"
  /\ classification_of error traceback !! "severity" = Some "low"
  /\ classification_of error traceback !! "general_advice"
     = Some "Unexpected error occurred.".
Proof. intros Hnone. unfold classification_of. rewrite Hnone. done. Qed.

Lemma classification_of_str kind message traceback :
  classification_of (instantiate (type_of_str kind) message) traceback
  = unknown_classification message traceback.
Proof. reflexivity. Qed.
End Classification.

(** ** The phases of an inspection *)

Section Phases.
Context {python : Python}.
Implicit Types (self : CodeInspector) (code : string) (w : world).

Lemma static_analysis_parsed self code tree w :
  ast_parse code = Parsed tree ->
  static_analysis self code w
  = Returns (Analysis (count_instances ["FunctionDef"] tree)
                      (count_instances ["ClassDef"] tree)
                      (count_instances ["Import"; "ImportFrom"] tree)
                      (_calculate_complexity tree)) w.
Proof.
  intros Hparse. unfold static_analysis, try_except, mbind, M_bind, parse.
  by rewrite Hparse.
Qed.

Lemma static_analysis_rejected self code e w :
  ast_parse code = ParseFault e ->
  static_analysis self code w
  = if isinstance e "SyntaxError"
    then Returns (SyntaxFault (obj_str e) (obj_lineno e) (obj_offset e)) w
    else Raises e w.
Proof.
  intros Hparse. unfold static_analysis, try_except, mbind, M_bind, parse.
  rewrite Hparse. destruct (isinstance e "SyntaxError"); [|done].
  unfold mret, M_ret. by rewrite set_exc_info_restore.
Qed.

(** [static_analysis] reads nothing of the inspector or of the
    interpreter state and leaves the state as it was. *)
Lemma static_analysis_pure self self' code w w' :
  match static_analysis self code w with
  | Returns section w1 => w1 = w /\ static_analysis self' code w' = Returns section w'
  | Raises e w1 => w1 = w /\ static_analysis self' code w' = Raises e w'
  | NeverReturns => False
  end.
Proof.
  destruct (ast_parse code) as [tree|e] eqn:Hparse.
  - by rewrite !(static_analysis_parsed _ _ tree).
  - rewrite !(static_analysis_rejected _ _ e) by done.
    by destruct (isinstance e "SyntaxError").
Qed.

Lemma runtime_execution_cases self code timeout w :
  runtime_execution self code timeout w
  = match exec (clock w) code with
    | Completes out err elapsed =>
        Returns {| success := true; output := Some out; runtime := Some elapsed;
                   error := None; error_details := None |}
                (set_clock (clock w + elapsed) w)
    | Faults e out err elapsed =>
        if isinstance e "Exception" then
          Returns {| success := false; output := None; runtime := Some elapsed;
                     error := Some (<["type" := type_name e]>
                                    (<["message" := obj_str e]>
                                     {[ "traceback" := format_exception e ]}));
                     error_details := None |}
                  (set_clock (clock w + elapsed) w)
        else Raises e (set_clock (clock w + elapsed) w)
    | Hangs => NeverReturns
    end.
Proof.
  unfold runtime_execution, try_except, redirect, run_exec, mbind, M_bind, mret, M_ret,
    time_time, getvalue_stdout, traceback_format_exc.
  destruct w as [now out0 err0 handled]. simpl.
  destruct (exec now code) as [out err elapsed|e out err elapsed|]; simpl; [| |done].
  - unfold set_clock, set_streams. simpl. do 3 f_equal. lia.
  - destruct (isinstance e "Exception"); [|done].
    unfold set_clock, set_streams, set_exc_info. simpl. do 3 f_equal. lia.
Qed.

Lemma analyze_unknown_kind self code (classified : gmap string string) w :
  classified !! "type" = Some "str" ->
  analyze_and_suggest_fix self code classified w = Returns [generic_suggestion] w.
Proof.
  intros Htype. unfold analyze_and_suggest_fix, getitem. by rewrite Htype.
Qed.

Lemma analyze_never_empty self code (classified : gmap string string) kind w :
  classified !! "type" = Some kind ->
  exists first rest, analyze_and_suggest_fix self code classified w = Returns (first :: rest) w.
Proof.
  intros Htype. unfold analyze_and_suggest_fix, getitem. rewrite Htype.
  unfold mbind, M_bind, mret, M_ret. simpl.
  repeat (match goal with |- context [if ?b then _ else _] => destruct b end;
          [simpl; eauto|]).
  simpl; eauto.
Qed.

(** The static phase of [comprehensive_inspection]. *)
Lemma static_phase_cases self code w :
  let phase :=
    try_except (static_analysis self code) "Exception"
      (fun static_error =>
         classified ← classify_error static_error;
         mret (StaticFallback classified)) in
  match ast_parse code with
  | Parsed tree =>
      phase w = Returns (Analysis (count_instances ["FunctionDef"] tree)
                                  (count_instances ["ClassDef"] tree)
                                  (count_instances ["Import"; "ImportFrom"] tree)
                                  (_calculate_complexity tree)) w
  | ParseFault e =>
      if isinstance e "SyntaxError"
      then phase w = Returns (SyntaxFault (obj_str e) (obj_lineno e) (obj_offset e)) w
      else if isinstance e "Exception"
      then phase w = Returns (StaticFallback (classification_of e (format_exception e))) w
      else phase w = Raises e w
  end.
Proof.
  intros phase. subst phase.
  destruct (ast_parse code) as [tree|e] eqn:Hparse.
  - apply try_except_Returns. by apply static_analysis_parsed.
  - pose proof (static_analysis_rejected self code e w Hparse) as Hstatic.
    destruct (isinstance e "SyntaxError").
    + by apply try_except_Returns.
    + destruct (isinstance e "Exception") eqn:Hexception.
      * rewrite <- (set_exc_info_restore w (Some e)) at 2.
        eapply try_except_handles; [done..|].
        by rewrite (bind_Returns _ _ _ _ _ (classify_error_value e _)).
      * by apply try_except_passes.
Qed.

(** The runtime phase of [comprehensive_inspection].  Whatever was
    raised, the classifier is handed a string: its kind is [str]. *)
Lemma runtime_phase_cases self code w :
  let phase :=
    try_except
      (runtime_result ← runtime_execution self code default_timeout;
       if negb (success runtime_result) && true then
         error_info ← match error runtime_result with
                      | Some error_info => mret error_info
                      | None => raise (new_exception "TypeError"
                                         (quote +:+ "NoneType" +:+ quote
                                            +:+ " object is not subscriptable"))
                      end;
         error_type ← getitem error_info "type";
         message ← getitem error_info "message";
         error_classification ←
           classify_error (instantiate (type_of_str error_type) message);
         fix_suggestions ← analyze_and_suggest_fix self code error_classification;
         mret (Executed
                 {| success := success runtime_result;
                    output := output runtime_result;
                    runtime := runtime runtime_result;
                    error := error runtime_result;
                    error_details :=
                      Some {| classification := error_classification;
                              suggested_fixes := fix_suggestions |} |})
       else mret (Executed runtime_result))
      "Exception"
      (fun runtime_error =>
         classified ← classify_error runtime_error;
         mret (RuntimeFallback classified)) in
  match exec (clock w) code with
  | Completes out err elapsed =>
      phase w = Returns (Executed {| success := true; output := Some out;
                                     runtime := Some elapsed; error := None;
                                     error_details := None |})
                        (set_clock (clock w + elapsed) w)
  | Faults e out err elapsed =>
      if isinstance e "Exception" then
        phase w
          = Returns
              (Executed
                 {| success := false; output := None; runtime := Some elapsed;
                    error := Some (<["type" := type_name e]>
                                   (<["message" := obj_str e]>
                                    {[ "traceback" := format_exception e ]}));
                    error_details :=
                      Some {| classification :=
                                unknown_classification (obj_str e) (current_traceback w);
                              suggested_fixes := [generic_suggestion] |} |})
              (set_clock (clock w + elapsed) w)
      else phase w = Raises e (set_clock (clock w + elapsed) w)
  | Hangs => phase w = NeverReturns
  end.
Proof.
  intros phase. subst phase.
  pose proof (runtime_execution_cases self code default_timeout w) as Hrun.
  destruct (exec (clock w) code) as [out err elapsed|e out err elapsed|].
  - apply try_except_Returns. by rewrite (bind_Returns _ _ _ _ _ Hrun).
  - destruct (isinstance e "Exception") eqn:Hexception.
    + pose proof (classify_error_value
                    (instantiate (type_of_str (type_name e)) (obj_str e))
                    (set_clock (clock w + elapsed) w)) as Hclassified.
      rewrite classification_of_str in Hclassified.
      apply try_except_Returns.
      rewrite (bind_Returns _ _ _ _ _ Hrun). simpl.
      unfold mbind at 1, M_bind at 1, mret at 1, M_ret at 1.
      destruct (getitem_raw_error (type_name e) (obj_str e) (format_exception e)
                  (set_clock (clock w + elapsed) w)) as [Htype Hmessage].
      rewrite (bind_Returns _ _ _ _ _ Htype), (bind_Returns _ _ _ _ _ Hmessage).
      rewrite (bind_Returns _ _ _ _ _ Hclassified).
      erewrite bind_Returns; [|by apply analyze_unknown_kind].
      reflexivity.
    + apply try_except_passes; [|done]. by rewrite (bind_Raises _ _ _ _ _ Hrun).
  - apply try_except_Hangs. by rewrite (bind_Hangs _ _ _ Hrun).
Qed.
Lemma static_phase_value self code w :
  try_except (static_analysis self code) "Exception"
    (fun static_error =>
       classified ← classify_error static_error;
       mret (StaticFallback classified)) w
  = match static_outcome code with
    | inl static => Returns static w
    | inr e => Raises e w
    end.
Proof.
  pose proof (static_phase_cases self code w) as Hstatic. cbv zeta in Hstatic.
  unfold static_outcome. destruct (ast_parse code) as [tree|e]; [done|].
  destruct (isinstance e "SyntaxError"); [done|].
  by destruct (isinstance e "Exception").
Qed.

(** An inspection, case by case. *)
Lemma inspection_value self code w :
  comprehensive_inspection self code w
  = match static_outcome code with
    | inr e => Raises e w
    | inl static =>
        match exec (clock w) code with
        | Completes out err elapsed =>
            Returns
              {| report_static_analysis := static;
                 report_runtime_analysis :=
                   Executed {| success := true; output := Some out;
                               runtime := Some elapsed; error := None;
                               error_details := None |} |}
              (set_clock (clock w + elapsed) w)
        | Faults e out err elapsed =>
            if isinstance e "Exception" then
              Returns
                {| report_static_analysis := static;
                   report_runtime_analysis :=
                     Executed
                       {| success := false; output := None; runtime := Some elapsed;
                          error := Some (<["type" := type_name e]>
                                         (<["message" := obj_str e]>
                                          {[ "traceback" := format_exception e ]}));
                          error_details :=
                            Some {| classification :=
                                      unknown_classification (obj_str e)
                                        (current_traceback w);
                                    suggested_fixes := [generic_suggestion] |} |} |}
                (set_clock (clock w + elapsed) w)
            else Raises e (set_clock (clock w + elapsed) w)
        | Hangs => NeverReturns
        end
    end.
Proof.
  unfold comprehensive_inspection.
  pose proof (static_phase_value self code w) as Hstatic.
  pose proof (runtime_phase_cases self code w) as Hruntime. cbv zeta in Hruntime.
  destruct (static_outcome code) as [static|e0].
  - rewrite (bind_Returns _ _ _ _ _ Hstatic).
    destruct (exec (clock w) code) as [out err elapsed|e out err elapsed|].
    + by rewrite (bind_Returns _ _ _ _ _ Hruntime).
    + destruct (isinstance e "Exception").
      * by rewrite (bind_Returns _ _ _ _ _ Hruntime).
      * by rewrite (bind_Raises _ _ _ _ _ Hruntime).
    + by rewrite (bind_Hangs _ _ _ Hruntime).
  - by rewrite (bind_Raises _ _ _ _ _ Hstatic).
Qed.
End Phases.

(** ** The claims about the inspector *)

Section Claims.
Context {python : Python}.
Implicit Types (self : CodeInspector) (code : string) (w : world).


(** C5, as the code has it: when the parser rejects the source with
    a [SyntaxError], [static_analysis] returns [syntax_valid: False]
    with the message, line and offset the parser reported; a fault of
    the parser that is not a [SyntaxError] is not handled there and
    reaches the caller. *)
Theorem static_analysis_on_parser_fault self code e w :
  ast_parse code = ParseFault e ->
  (isinstance e "SyntaxError" = true ->
   static_analysis self code w
   = Returns (SyntaxFault (obj_str e) (obj_lineno e) (obj_offset e)) w)
  /\ (isinstance e "SyntaxError" = false -> static_analysis self code w = Raises e w).
Proof.
  intros Hparse. rewrite (static_analysis_rejected self code e w Hparse).
  by split; intros ->.
Qed.

(** C7, as the code has it: for a source that parses, the complexity
    score that [static_analysis] reports is one, plus the number of
    [If], [While], [For], [Try], [ExceptHandler], [AsyncFor],
    [AsyncWith] and [Match] nodes of the tree, plus, for each [BoolOp]
    node, its number of operands less one.  A [match] statement counts
    once, whatever the number of its arms, and a [try] counts along
    with each of its handlers. *)
Theorem complexity_counts_nodes self code tree w :
  ast_parse code = Parsed tree ->
  exists function_count class_count import_count,
    static_analysis self code w
    = Returns (Analysis function_count class_count import_count
                 (1 + count_nodes branching tree + boolop_excess tree)) w.
Proof.
  intros Hparse. rewrite (static_analysis_parsed self code tree w Hparse).
  rewrite complexity_formula. eauto.
Qed.


(** [runtime_execution] never looks at its [timeout]. *)
Lemma runtime_execution_ignores_timeout self code timeout timeout' w :
  runtime_execution self code timeout w = runtime_execution self code timeout' w.
Proof. by rewrite !runtime_execution_cases. Qed.



(** Whatever [Exception] the code raises, the classification attached
    to the result is that of a string, kind "str" and category
    "Unknown", with the generic suggestion. *)
Lemma runtime_fault_always_unknown self code w static e out err elapsed :
  static_outcome code = inl static ->
  exec (clock w) code = Faults e out err elapsed ->
  isinstance e "Exception" = true ->
  comprehensive_inspection self code w
  = Returns
      {| report_static_analysis := static;
         report_runtime_analysis :=
           Executed
             {| success := false; output := None; runtime := Some elapsed;
                error := Some (<["type" := type_name e]>
                               (<["message" := obj_str e]>
                                {[ "traceback" := format_exception e ]}));
                error_details :=
                  Some {| classification :=
                            unknown_classification (obj_str e) (current_traceback w);
                          suggested_fixes := [generic_suggestion] |} |} |}
      (set_clock (clock w + elapsed) w).
Proof.
  intros Hstatic Hexec Hexception.
  by rewrite inspection_value, Hstatic, Hexec, Hexception.
Qed.
End Claims.

(** ** The fragment of Python *)

Lemma corpus_in_fragment :
  forallb (fun s =>
             match Reference.parsed s with
             | Reference.Program module =>
                 match Py.exec_sandboxed Reference.fuel module with
                 | Py.Stuck => false
                 | _ => true
                 end
             | _ => true
             end) Reference.corpus = true.
Proof. vm_compute. reflexivity. Qed.

(** [while True: pass] exhausts any amount of fuel. *)
Lemma spin_forever fuel fr s :
  Py.exec_stmt fuel fr (Py.While (Py.Constant (Py.CBool true)) [Py.Pass]) s = Py.OutOfFuel.
Proof.
  revert s. induction fuel as [|fuel IH]; intros s; [done|].
  cbn [Py.exec_stmt]. destruct fuel as [|fuel]; [done|].
  cbn [Py.eval Py.bind Py.value_of Py.truthy Py.exec_block].
  destruct fuel as [|fuel]; [done|].
  cbn [Py.exec_stmt Py.bind]. destruct fuel as [|fuel]; [done|].
  cbn [Py.exec_block Py.bind]. apply IH.
Qed.

Lemma spin_never_completes fuel :
  Py.exec_sandboxed fuel [Py.While (Py.Constant (Py.CBool true)) [Py.Pass]] = Py.OutOfFuel.
Proof.
  unfold Py.exec_sandboxed. destruct fuel as [|fuel]; [done|].
  cbn [Py.exec_block]. by rewrite spin_forever.
Qed.

Lemma keeps_bind {A B} g (m : Py.outcome A) (k : A -> Py.state -> Py.outcome B) :
  keeps g m -> (forall a s, sandboxed g s -> keeps g (k a s)) -> keeps g (Py.bind m k).
Proof. destruct m; simpl; eauto. Qed.

Lemma keeps_load_global g id s : sandboxed g s -> keeps g (Py.load_global id s).
Proof.
  intros Hs. unfold Py.load_global.
  destruct (Py.globals s !! id); [done|]. by destruct (Py.builtins !! id).
Qed.

Lemma keeps_load g fr id s : sandboxed g s -> keeps g (Py.load fr id s).
Proof.
  intros Hs. unfold Py.load. destruct fr as [|local_names fast].
  - destruct (Py.locals s ≫= _); [done|]. by apply keeps_load_global.
  - destruct (bool_decide _); [|by apply keeps_load_global].
    by destruct (fast !! id).
Qed.

Lemma keeps_binop g op a b s : sandboxed g s -> keeps g (Py.binop op a b s).
Proof.
  intros Hs. unfold Py.binop.
  destruct op, (Py.as_int a), (Py.as_int b), a, b; simpl; done.
Qed.

Lemma keeps_compare g op a b s : sandboxed g s -> keeps g (Py.compare op a b s).
Proof.
  intros Hs. unfold Py.compare.
  destruct op, (Py.as_int a), (Py.as_int b), a, b; simpl; done.
Qed.

Lemma keeps_call_builtin g f args s : sandboxed g s -> keeps g (Py.call_builtin f args s).
Proof.
  intros Hs. unfold Py.call_builtin. destruct f; try done.
  - destruct (String.eqb _ _); [|done]. by destruct (Py.strs args).
  - destruct (String.eqb _ _); [done|]. destruct args as [|a [|b args]]; try done.
    by destruct (Py.str a).
Qed.

Lemma sandboxed_tick g s : sandboxed g s -> sandboxed g (Py.tick s).
Proof. done. Qed.

Lemma sandboxed_store g fr id v s :
  sandboxed g s -> sandboxed g (snd (Py.store fr id v s)).
Proof.
  intros [Hg [l Hl]]. unfold Py.store. destruct fr; [|done].
  rewrite Hl. split; simpl; eauto.
Qed.

Lemma sandbox_preserved g fuel :
  (forall fr e s, sandboxed g s -> keeps g (Py.eval fuel fr e s))
  /\ (forall fr es s, sandboxed g s -> keeps g (Py.eval_args fuel fr es s))
  /\ (forall f args s, sandboxed g s -> keeps g (Py.call fuel f args s))
  /\ (forall fr st s, sandboxed g s -> keeps g (Py.exec_stmt fuel fr st s))
  /\ (forall fr body s, sandboxed g s -> keeps g (Py.exec_block fuel fr body s)).
Proof.
  induction fuel as [|fuel (IHeval & IHargs & IHcall & IHstmt & IHblock)]; [done|].
  repeat split.
  - intros fr [c|id|lhs op rhs|lhs op rhs|func args] s Hs; cbn [Py.eval].
    + done.
    + by apply keeps_load.
    + apply keeps_bind; [eauto|]. intros a s1 Hs1.
      apply keeps_bind; [eauto|]. intros b s2 Hs2. by apply keeps_binop.
    + apply keeps_bind; [eauto|]. intros a s1 Hs1.
      apply keeps_bind; [eauto|]. intros b s2 Hs2. by apply keeps_compare.
    + apply keeps_bind; [eauto|]. intros f s1 Hs1.
      apply keeps_bind; [eauto|]. intros vs s2 Hs2. eauto.
  - intros fr [|e es] s Hs; cbn [Py.eval_args]; [done|].
    apply keeps_bind; [eauto|]. intros v s1 Hs1.
    apply keeps_bind; [eauto|]. intros vs s2 Hs2. done.
  - intros f args s Hs. cbn [Py.call].
    destruct f; try by apply keeps_call_builtin.
    destruct (bool_decide _); [|done].
    apply keeps_bind; [eauto|]. intros [[|v] fr'] s1 Hs1; done.
  - intros fr st s Hs. cbn [Py.exec_stmt]. apply (sandboxed_tick g) in Hs.
    destruct st as [name params body|value|target value|test body|test body orelse|exc|value|].
    + destruct fr; [|done].
      pose proof (sandboxed_store g Py.ModuleFrame name (Py.VFunction name params body) _ Hs).
      by destruct (Py.store _ _ _ _).
    + destruct fr; [done|]. apply keeps_bind; [eauto|]. done.
    + apply keeps_bind; [eauto|]. intros v s1 Hs1.
      pose proof (sandboxed_store g fr target v _ Hs1). by destruct (Py.store _ _ _ _).
    + apply keeps_bind; [eauto|]. intros c s1 Hs1.
      destruct (Py.truthy c); [|done].
      apply keeps_bind; [eauto|]. intros [[|v] fr'] s2 Hs2; eauto.
    + apply keeps_bind; [eauto|]. intros c s1 Hs1. eauto.
    + apply keeps_bind; [eauto|]. intros v s1 Hs1. by destruct v.
    + apply keeps_bind; [eauto|]. done.
    + done.
  - intros fr [|st rest] s Hs; cbn [Py.exec_block]; [done|].
    apply keeps_bind; [eauto|]. intros [[|v] fr'] s1 Hs1; eauto.
Qed.

Lemma sandbox_globals_stay_empty fuel module :
  keeps ∅ (Py.exec_sandboxed fuel module).
Proof. apply sandbox_preserved. split; simpl; eauto. Qed.

(** ** Fuel *)

(** One step of each function of the interpreter. *)
Lemma eval_step fuel fr e s :
  Py.eval (S fuel) fr e s
  = match e with
    | Py.Constant c => Py.Ok (Py.value_of c) s
    | Py.Name id => Py.load fr id s
    | Py.BinOp lhs op rhs =>
        Py.bind (Py.eval fuel fr lhs s) (fun a s =>
        Py.bind (Py.eval fuel fr rhs s) (fun b s => Py.binop op a b s))
    | Py.Compare lhs op rhs =>
        Py.bind (Py.eval fuel fr lhs s) (fun a s =>
        Py.bind (Py.eval fuel fr rhs s) (fun b s => Py.compare op a b s))
    | Py.Call func args =>
        Py.bind (Py.eval fuel fr func s) (fun f s =>
        Py.bind (Py.eval_args fuel fr args s) (fun vs s => Py.call fuel f vs s))
    end.
Proof. reflexivity. Qed.

Lemma eval_args_step fuel fr es s :
  Py.eval_args (S fuel) fr es s
  = match es with
    | [] => Py.Ok [] s
    | e :: es =>
        Py.bind (Py.eval fuel fr e s) (fun v s =>
        Py.bind (Py.eval_args fuel fr es s) (fun vs s => Py.Ok (v :: vs) s))
    end.
Proof. reflexivity. Qed.

Lemma call_step fuel f args s :
  Py.call (S fuel) f args s
  = match f with
    | Py.VFunction _ params body =>
        if bool_decide (length params = length args) then
          Py.bind (Py.exec_block fuel
                     (Py.FunctionFrame (params ++ concat (map Py.assigned body))
                                       (list_to_map (zip params args))) body s)
            (fun r s =>
               match r with
               | (Py.Returned v, _) => Py.Ok v s
               | (Py.Normal, _) => Py.Ok Py.VNone s
               end)
        else Py.Stuck
    | _ => Py.call_builtin f args s
    end.
Proof. reflexivity. Qed.

Lemma exec_stmt_step fuel fr st s :
  Py.exec_stmt (S fuel) fr st s
  = let s := Py.tick s in
     match st with
     | Py.FunctionDef name params body =>
         match fr with
         | Py.ModuleFrame =>
             let '(fr, s) := Py.store fr name (Py.VFunction name params body) s in
             Py.Ok (Py.Normal, fr) s
         | Py.FunctionFrame _ _ => Py.Stuck
         end
     | Py.Return value =>
         match fr with
         | Py.ModuleFrame => Py.Stuck
         | Py.FunctionFrame _ _ =>
             Py.bind (Py.eval fuel fr value s) (fun v s => Py.Ok (Py.Returned v, fr) s)
         end
     | Py.Assign target value =>
         Py.bind (Py.eval fuel fr value s) (fun v s =>
           let '(fr, s) := Py.store fr target v s in Py.Ok (Py.Normal, fr) s)
     | Py.While test body =>
         Py.bind (Py.eval fuel fr test s) (fun c s =>
           if Py.truthy c then
             Py.bind (Py.exec_block fuel fr body s) (fun r s =>
               match r with
               | (Py.Normal, fr) => Py.exec_stmt fuel fr (Py.While test body) s
               | (Py.Returned v, fr) => Py.Ok (Py.Returned v, fr) s
               end)
           else Py.Ok (Py.Normal, fr) s)
     | Py.If test body orelse =>
         Py.bind (Py.eval fuel fr test s) (fun c s =>
           Py.exec_block fuel fr (if Py.truthy c then body else orelse) s)
     | Py.Raise exc =>
         Py.bind (Py.eval fuel fr exc s) (fun v s =>
           match v with
           | Py.VClass name => Py.Exc (new_exception name "") s
           | Py.VException e => Py.Exc e s
           | _ => Py.Exc (new_exception "TypeError"
                            "exceptions must derive from BaseException") s
           end)
     | Py.Expr value =>
         Py.bind (Py.eval fuel fr value s) (fun _ s => Py.Ok (Py.Normal, fr) s)
     | Py.Pass => Py.Ok (Py.Normal, fr) s
     end.
Proof. reflexivity. Qed.

Lemma exec_block_step fuel fr body s :
  Py.exec_block (S fuel) fr body s
  = match body with
    | [] => Py.Ok (Py.Normal, fr) s
    | st :: rest =>
        Py.bind (Py.exec_stmt fuel fr st s) (fun r s =>
          match r with
          | (Py.Normal, fr) => Py.exec_block fuel fr rest s
          | (Py.Returned v, fr) => Py.Ok (Py.Returned v, fr) s
          end)
    end.
Proof. reflexivity. Qed.

Lemma bind_more_fuel {A B} (m m' : Py.outcome A) (k k' : A -> Py.state -> Py.outcome B) :
  (m <> Py.OutOfFuel -> m' = m) ->
  (forall a s, k a s <> Py.OutOfFuel -> k' a s = k a s) ->
  Py.bind m k <> Py.OutOfFuel -> Py.bind m' k' = Py.bind m k.
Proof.
  intros Hm Hk. destruct m as [a s|e s| |]; simpl; intros Hdone; try done;
    rewrite Hm by done; simpl; auto.
Qed.

(** An answer reached with some fuel is reached with one unit more. *)
Lemma one_more_unit fuel :
  (forall fr e s, Py.eval fuel fr e s <> Py.OutOfFuel ->
                  Py.eval (S fuel) fr e s = Py.eval fuel fr e s)
  /\ (forall fr es s, Py.eval_args fuel fr es s <> Py.OutOfFuel ->
                      Py.eval_args (S fuel) fr es s = Py.eval_args fuel fr es s)
  /\ (forall f args s, Py.call fuel f args s <> Py.OutOfFuel ->
                       Py.call (S fuel) f args s = Py.call fuel f args s)
  /\ (forall fr st s, Py.exec_stmt fuel fr st s <> Py.OutOfFuel ->
                      Py.exec_stmt (S fuel) fr st s = Py.exec_stmt fuel fr st s)
  /\ (forall fr body s, Py.exec_block fuel fr body s <> Py.OutOfFuel ->
                        Py.exec_block (S fuel) fr body s = Py.exec_block fuel fr body s).
Proof.
  induction fuel as [|fuel (IHeval & IHargs & IHcall & IHstmt & IHblock)]; [done|].
  repeat split.
  - intros fr e s. rewrite (eval_step (S fuel)), (eval_step fuel).
    destruct e as [c|id|lhs op rhs|lhs op rhs|func args]; try done.
    + apply bind_more_fuel; [auto|]. intros a s1. apply bind_more_fuel; auto.
    + apply bind_more_fuel; [auto|]. intros a s1. apply bind_more_fuel; auto.
    + apply bind_more_fuel; [auto|]. intros a s1. apply bind_more_fuel; auto.
  - intros fr es s. rewrite (eval_args_step (S fuel)), (eval_args_step fuel).
    destruct es as [|e es]; [done|].
    apply bind_more_fuel; [auto|]. intros a s1. apply bind_more_fuel; auto.
  - intros f args s. rewrite (call_step (S fuel)), (call_step fuel).
    destruct f; try done. destruct (bool_decide _); [|done].
    apply bind_more_fuel; auto.
  - intros fr st s.
    rewrite (exec_stmt_step (S fuel)), (exec_stmt_step fuel). cbv zeta.
    destruct st as [name params body|value|target value|test body|test body orelse|exc|value|];
      try done.
    + destruct fr; [done|]. apply bind_more_fuel; auto.
    + apply bind_more_fuel; auto.
    + apply bind_more_fuel; [auto|]. intros c s1. destruct (Py.truthy c); [|done].
      apply bind_more_fuel; [auto|]. intros [[|v] fr'] s2; auto.
    + apply bind_more_fuel; auto.
    + apply bind_more_fuel; auto.
    + apply bind_more_fuel; auto.
  - intros fr body s. rewrite (exec_block_step (S fuel)), (exec_block_step fuel).
    destruct body as [|st rest]; [done|].
    apply bind_more_fuel; [auto|]. intros [[|v] fr'] s1; auto.
Qed.

Lemma more_fuel fuel extra module :
  Py.exec_sandboxed fuel module <> Py.OutOfFuel ->
  Py.exec_sandboxed (extra + fuel) module = Py.exec_sandboxed fuel module.
Proof.
  intros Hdone. induction extra as [|extra IH]; [done|].
  unfold Py.exec_sandboxed in *. simpl Nat.add.
  destruct (one_more_unit (extra + fuel)) as (_ & _ & _ & _ & Hblock).
  rewrite Hblock; [done|]. by rewrite IH.
Qed.

(** What the reference runtime observes of a run that ended is what
    any larger amount of fuel shows. *)
Lemma observation_is_final extra module :
  Py.exec_sandboxed Reference.fuel module <> Py.OutOfFuel ->
  Reference.observe (Py.exec_sandboxed (extra + Reference.fuel) module)
  = Reference.observe (Py.exec_sandboxed Reference.fuel module).
Proof. intros Hdone. by rewrite more_fuel. Qed.

(** ** The sandbox against a program run *)

Lemma mirrors_bind {A B} (post : A -> Prop) (post' : B -> Prop)
    (m m' : Py.outcome A) (k k' : A -> Py.state -> Py.outcome B) :
  mirrors post m m' ->
  (forall a s, sandboxed ∅ s -> no_shadow s -> post a ->
               mirrors post' (k a s) (k' a (as_program s))) ->
  mirrors post' (Py.bind m k) (Py.bind m' k').
Proof.
  intros Hm Hk. destruct m as [a s|e s| |], m' as [a' s'|e' s'| |]; simpl in *; try done.
  - destruct Hm as (-> & -> & Hs & Hshadow & Hpost). by apply Hk.
  - destruct (k' a' s'); simpl; auto.
Qed.

Lemma mirrors_weaken {A} (post post' : A -> Prop) (m m' : Py.outcome A) :
  (forall a, post a -> post' a) -> mirrors post m m' -> mirrors post' m m'.
Proof.
  intros Himpl. destruct m as [a s|e s| |], m' as [a' s'|e' s'| |]; simpl; try done.
  intros (-> & -> & Hs & Hshadow & Hpost).
  exact (conj eq_refl (conj eq_refl (conj Hs (conj Hshadow (Himpl _ Hpost))))).
Qed.

Lemma same_kind_refl fr : same_kind fr fr.
Proof. by destruct fr. Qed.

Lemma same_kind_trans fr1 fr2 fr3 : same_kind fr1 fr2 -> same_kind fr2 fr3 -> same_kind fr1 fr3.
Proof. by destruct fr1, fr2, fr3. Qed.

Lemma mirrors_Ok {A} (post : A -> Prop) a s :
  sandboxed ∅ s -> no_shadow s -> post a ->
  mirrors post (Py.Ok a s) (Py.Ok a (as_program s)).
Proof. intros. simpl. auto. Qed.

Lemma mirrors_Exc {A} (post : A -> Prop) e s :
  mirrors post (Py.Exc e s) (Py.Exc e (as_program s)).
Proof. simpl. auto. Qed.

Lemma as_program_tick s : as_program (Py.tick s) = Py.tick (as_program s).
Proof. by destruct s as [g [l|] o t]. Qed.

Lemma as_program_write text s : as_program (Py.write text s) = Py.write text (as_program s).
Proof. by destruct s as [g [l|] o t]. Qed.

Lemma no_shadow_tick s : no_shadow s -> no_shadow (Py.tick s).
Proof. done. Qed.

Section Mirror.
Variable s : Py.state.
Hypothesis Hs : sandboxed ∅ s.
Hypothesis Hshadow : no_shadow s.

Lemma as_program_sandboxed :
  exists module_names,
    Py.locals s = Some module_names /\ Py.globals s = ∅
    /\ as_program s = Py.State module_names None (Py.out s) (Py.ticks s).
Proof.
  destruct Hs as [Hglobals [module_names Hlocals]]. exists module_names.
  unfold as_program. by rewrite Hlocals.
Qed.

Lemma mirrors_load fr id :
  mirrors (fun _ => True) (Py.load fr id s) (Py.load fr id (as_program s)).
Proof.
  destruct as_program_sandboxed as (module_names & Hlocals & Hglobals & Hprogram).
  assert (Py.locals (as_program s) = None) as Hplocals by by rewrite Hprogram.
  assert (Py.globals (as_program s) = module_names) as Hpglobals by by rewrite Hprogram.
  unfold Py.load, Py.load_global. rewrite Hlocals, Hglobals, Hplocals, Hpglobals.
  cbn [mbind option_bind]. rewrite lookup_empty.
  destruct fr as [|local_names fast].
  - destruct (module_names !! id) as [v|] eqn:Hbound; [by apply mirrors_Ok|].
    destruct (Py.builtins !! id); [by apply mirrors_Ok|apply mirrors_Exc].
  - destruct (bool_decide (id ∈ local_names)).
    + destruct (fast !! id); [by apply mirrors_Ok|apply mirrors_Exc].
    + destruct (module_names !! id) as [v|] eqn:Hbound.
      * rewrite (Hshadow module_names id Hlocals); [|by rewrite Hbound].
        exists id, module_names. by rewrite Hbound.
      * destruct (Py.builtins !! id); [by apply mirrors_Ok|apply mirrors_Exc].
Qed.

Lemma mirrors_binop op a b :
  mirrors (fun _ => True) (Py.binop op a b s) (Py.binop op a b (as_program s)).
Proof.
  unfold Py.binop.
  destruct op, (Py.as_int a), (Py.as_int b), a, b;
    first [by apply mirrors_Ok | apply mirrors_Exc | done].
Qed.

Lemma mirrors_compare op a b :
  mirrors (fun _ => True) (Py.compare op a b s) (Py.compare op a b (as_program s)).
Proof.
  unfold Py.compare.
  destruct op, (Py.as_int a), (Py.as_int b), a, b; cbn [Py.plain andb];
    first [by apply mirrors_Ok | apply mirrors_Exc | done].
Qed.

Lemma mirrors_call_builtin f args :
  mirrors (fun _ => True) (Py.call_builtin f args s) (Py.call_builtin f args (as_program s)).
Proof.
  unfold Py.call_builtin.
  destruct f; try apply mirrors_Exc.
  - destruct (String.eqb _ _); [|done]. destruct (Py.strs args); [|done].
    rewrite <- as_program_write. by apply mirrors_Ok.
  - destruct (String.eqb _ _); [done|]. destruct args as [|a [|b args]]; try done.
    destruct (Py.str a); [by apply mirrors_Ok|done].
Qed.

Lemma mirrors_store fr id v :
  (fr = Py.ModuleFrame -> Py.builtins !! id = None) ->
  same_kind fr (Py.store fr id v s).1
  /\ sandboxed ∅ (Py.store fr id v s).2
  /\ no_shadow (Py.store fr id v s).2
  /\ Py.store fr id v (as_program s) = ((Py.store fr id v s).1, as_program (Py.store fr id v s).2).
Proof.
  intros Hfresh. destruct as_program_sandboxed as (module_names & Hlocals & Hglobals & Hprogram).
  unfold Py.store. destruct fr as [|local_names fast].
  - rewrite Hprogram. rewrite Hlocals. cbn [Py.locals Py.globals Py.out Py.ticks fst snd].
    split; [exact I|]. split; [split; [exact Hglobals|eexists; reflexivity]|]. split.
    + intros l id' Hl Hbound. cbn [Py.locals] in Hl. injection Hl as <-.
      destruct (decide (id = id')) as [<-|Hne]; [exact (Hfresh eq_refl)|].
      rewrite lookup_insert_ne in Hbound by exact Hne.
      exact (Hshadow module_names id' Hlocals Hbound).
    + unfold as_program. cbn [Py.locals Py.globals Py.out Py.ticks]. reflexivity.
  - cbn [fst snd]. split; [exact I|]. split; [exact Hs|]. split; [exact Hshadow|]. reflexivity.
Qed.
End Mirror.

Lemma fresh_names_app names names' :
  fresh_names (names ++ names') <-> fresh_names names /\ fresh_names names'.
Proof. apply Forall_app. Qed.

Lemma simulation fuel :
  (forall fr e s, sandboxed ∅ s -> no_shadow s ->
     mirrors (fun _ => True) (Py.eval fuel fr e s) (Py.eval fuel fr e (as_program s)))
  /\ (forall fr es s, sandboxed ∅ s -> no_shadow s ->
        mirrors (fun _ => True) (Py.eval_args fuel fr es s) (Py.eval_args fuel fr es (as_program s)))
  /\ (forall f args s, sandboxed ∅ s -> no_shadow s ->
        mirrors (fun _ => True) (Py.call fuel f args s) (Py.call fuel f args (as_program s)))
  /\ (forall fr st s, sandboxed ∅ s -> no_shadow s ->
        (fr = Py.ModuleFrame -> fresh_names (Py.assigned st)) ->
        mirrors (fun r => same_kind fr r.2)
                (Py.exec_stmt fuel fr st s) (Py.exec_stmt fuel fr st (as_program s)))
  /\ (forall fr body s, sandboxed ∅ s -> no_shadow s ->
        (fr = Py.ModuleFrame -> fresh_names (concat (map Py.assigned body))) ->
        mirrors (fun r => same_kind fr r.2)
                (Py.exec_block fuel fr body s) (Py.exec_block fuel fr body (as_program s))).
Proof.
  induction fuel as [|fuel (IHeval & IHargs & IHcall & IHstmt & IHblock)]; [done|].
  repeat split.
  - intros fr e s Hs Hshadow. rewrite !eval_step.
    destruct e as [c|id|lhs op rhs|lhs op rhs|func args].
    + by apply mirrors_Ok.
    + by apply mirrors_load.
    + eapply mirrors_bind; [eauto|]. intros a s1 Hs1 Hshadow1 _.
      eapply mirrors_bind; [eauto|]. intros b s2 Hs2 Hshadow2 _. by apply mirrors_binop.
    + eapply mirrors_bind; [eauto|]. intros a s1 Hs1 Hshadow1 _.
      eapply mirrors_bind; [eauto|]. intros b s2 Hs2 Hshadow2 _. by apply mirrors_compare.
    + eapply mirrors_bind; [eauto|]. intros f s1 Hs1 Hshadow1 _.
      eapply mirrors_bind; [eauto|]. intros vs s2 Hs2 Hshadow2 _. eauto.
  - intros fr es s Hs Hshadow. rewrite !eval_args_step.
    destruct es as [|e es]; [by apply mirrors_Ok|].
    eapply mirrors_bind; [eauto|]. intros v s1 Hs1 Hshadow1 _.
    eapply mirrors_bind; [eauto|]. intros vs s2 Hs2 Hshadow2 _. by apply mirrors_Ok.
  - intros f args s Hs Hshadow. rewrite !call_step.
    destruct f; try by apply mirrors_call_builtin.
    destruct (bool_decide _); [|done].
    eapply mirrors_bind; [apply IHblock; [done..|discriminate]|].
    intros [[|v] fr'] s1 Hs1 Hshadow1 _; by apply mirrors_Ok.
  - intros fr st s Hs Hshadow Hfresh. rewrite !exec_stmt_step. cbv zeta.
    rewrite <- as_program_tick.
    apply (sandboxed_tick ∅) in Hs. apply no_shadow_tick in Hshadow.
    destruct st as [name params body|value|target value|test body|test body orelse|exc|value|].
    + destruct fr; [|done].
      destruct (mirrors_store _ Hs Hshadow Py.ModuleFrame name (Py.VFunction name params body))
        as (Hkind & Hs1 & Hshadow1 & ->).
      { intros _. specialize (Hfresh eq_refl). by inversion Hfresh. }
      destruct (Py.store _ _ _ _). by apply mirrors_Ok.
    + destruct fr; [done|].
      eapply mirrors_bind; [eauto|]. intros v s1 Hs1 Hshadow1 _. by apply mirrors_Ok.
    + eapply mirrors_bind; [eauto|]. intros v s1 Hs1 Hshadow1 _.
      destruct (mirrors_store _ Hs1 Hshadow1 fr target v) as (Hkind & Hs2 & Hshadow2 & ->).
      { intros Hfr. specialize (Hfresh Hfr). by inversion Hfresh. }
      destruct (Py.store _ _ _ _). by apply mirrors_Ok.
    + eapply mirrors_bind; [eauto|]. intros c s1 Hs1 Hshadow1 _.
      destruct (Py.truthy c); [|apply mirrors_Ok; auto using same_kind_refl].
      eapply mirrors_bind; [by apply IHblock|].
      intros [[|v] fr'] s2 Hs2 Hshadow2 Hkind; simpl in Hkind.
      * eapply mirrors_weaken; [|apply IHstmt; [done..|]].
        -- intros r. by apply same_kind_trans.
        -- intros ->. apply Hfresh. by destruct fr.
      * by apply mirrors_Ok.
    + eapply mirrors_bind; [eauto|]. intros c s1 Hs1 Hshadow1 _.
      apply IHblock; [done..|]. intros Hfr. specialize (Hfresh Hfr).
      cbn [Py.assigned] in Hfresh. apply fresh_names_app in Hfresh as [? ?].
      by destruct (Py.truthy c).
    + eapply mirrors_bind; [eauto|]. intros v s1 Hs1 Hshadow1 _.
      destruct v; apply mirrors_Exc.
    + eapply mirrors_bind; [eauto|]. intros v s1 Hs1 Hshadow1 _.
      apply mirrors_Ok; auto using same_kind_refl.
    + apply mirrors_Ok; auto using same_kind_refl.
  - intros fr body s Hs Hshadow Hfresh. rewrite !exec_block_step.
    destruct body as [|st rest]; [apply mirrors_Ok; auto using same_kind_refl|].
    eapply mirrors_bind.
    + apply IHstmt; [done..|]. intros Hfr. specialize (Hfresh Hfr).
      cbn [map concat] in Hfresh. by apply fresh_names_app in Hfresh as [? ?].
    + intros [[|v] fr'] s1 Hs1 Hshadow1 Hkind; simpl in Hkind; [|by apply mirrors_Ok].
      eapply mirrors_weaken; [|apply IHblock; [done..|]].
      * intros r. by apply same_kind_trans.
      * intros ->. assert (fr = Py.ModuleFrame) as Hfr by by destruct fr.
        specialize (Hfresh Hfr). cbn [map concat] in Hfresh.
        by apply fresh_names_app in Hfresh as [? ?].
Qed.

(** A module whose own names are not those of built-ins runs in the
    sandbox as it runs as a program, output and ticks alike, unless the
    sandbox stops it with a [NameError] for a name the module bound. *)
Lemma sandbox_against_program fuel module :
  fresh_names (concat (map Py.assigned module)) ->
  Reference.observe (Py.exec_sandboxed fuel module)
  = Reference.observe (Py.exec_as_program fuel module)
  \/ exists e s, Py.exec_sandboxed fuel module = Py.Exc e s /\ hidden e s.
Proof.
  intros Hfresh. unfold Py.exec_sandboxed, Py.exec_as_program.
  destruct (simulation fuel) as (_ & _ & _ & _ & Hblock).
  specialize (Hblock Py.ModuleFrame module (Py.State ∅ (Some ∅) "" 0)).
  change (as_program (Py.State ∅ (Some ∅) "" 0)) with (Py.State ∅ None "" 0) in Hblock.
  assert (mirrors (fun r => same_kind Py.ModuleFrame r.2)
            (Py.exec_block fuel Py.ModuleFrame module (Py.State ∅ (Some ∅) "" 0))
            (Py.exec_block fuel Py.ModuleFrame module (Py.State ∅ None "" 0))) as Hmirrors.
  { apply Hblock.
    - split; simpl; eauto.
    - intros l id [= <-] [v Hv]. by rewrite lookup_empty in Hv.
    - done. }
  destruct (Py.exec_block fuel Py.ModuleFrame module (Py.State ∅ (Some ∅) "" 0))
    as [r s|e s| |],
    (Py.exec_block fuel Py.ModuleFrame module (Py.State ∅ None "" 0)) as [r' s'|e' s'| |];
    simpl in Hmirrors; try done; eauto.
  - destruct Hmirrors as (-> & -> & _). left. simpl. by destruct s as [g [l|] o t].
  - destruct Hmirrors as [[-> ->]|Hhidden]; [|eauto].
    left. simpl. by destruct s as [g [l|] o t].
Qed.



(** ** Runs on the reference runtime *)

Import Reference.


(** With a deeper call the same function fails in the sandbox and
    works as a program. *)
Lemma recursion_fails_in_sandbox :
  exec (Python := cpython) 0 (text factorial_of_5)
  = Faults (Py.name_error "fact") "" "" 4
  /\ observe (Py.exec_as_program fuel (fact 5)) = Completes ("120" +:+ newline) "" 12.
Proof. split; vm_compute; reflexivity. Qed.


(** Nor does the inspection of [while True: pass] ever return. *)
Lemma inspection_of_spin_never_returns :
  comprehensive_inspection (python := cpython) inspector (text spin) boot = NeverReturns.
Proof. vm_compute. reflexivity. Qed.


(** C2, on the code: for [x = 1 + '5'] the run fails with a
    [TypeError], and the classification attached to it is that of a
    string, with category "Unknown" where the taxonomy has
    "Type Mismatch" for [TypeError]; the one suggestion is the generic
    one. *)
Theorem mismatched_addition_reported_unknown :
  comprehensive_inspection (python := cpython) inspector "x = 1 + '5'" boot
  = Returns
      {| report_static_analysis := Analysis 0 0 0 1;
         report_runtime_analysis :=
           Executed
             {| success := false; output := None; runtime := Some 1%N;
                error :=
                  Some {[ "type" := "TypeError";
                          "message" := "unsupported operand type(s) for +: 'int' and 'str'";
                          "traceback" :=
                            "Traceback (most recent call last):" +:+ newline
                              +:+ "TypeError: unsupported operand type(s) for +: 'int' and 'str'"
                              +:+ newline ]};
                error_details :=
                  Some {| classification :=
                            {[ "type" := "str";
                               "message" := "unsupported operand type(s) for +: 'int' and 'str'";
                               "category" := "Unknown";
                               "severity" := "low";
                               "general_advice" := "Unexpected error occurred.";
                               "traceback" := "NoneType: None" +:+ newline ]};
                          suggested_fixes := [generic_suggestion] |} |} |}
      (World 1 "" "" None)
  /\ ERROR_TYPES !! "TypeError"
     = Some (taxonomy "Type Mismatch" "high" "Verify type compatibility and type conversions.").
Proof. split; vm_compute; reflexivity. Qed.

(** The first scenario of [main()] fares the same. *)
Lemma process_data_reported_unknown :
  exists static r details w',
    comprehensive_inspection (python := cpython) inspector (text process_data) boot
    = Returns {| report_static_analysis := static;
                 report_runtime_analysis := Executed r |} w'
    /\ (error r ≫= (.!! "type")) = Some "TypeError"
    /\ error_details r = Some details
    /\ classification details !! "category" = Some "Unknown".
Proof. eexists _, _, _, _. split; [vm_compute; reflexivity|]. repeat split. Qed.

(** C3, on the code: with a budget of 5 the countdown, which takes 22
    ticks, is left to run to its end and reported a success, and
    [while True: pass] is never interrupted. *)
Theorem timeout_not_enforced :
  runtime_execution (python := cpython) inspector (text countdown) 5%N boot
  = Returns {| success := true; output := Some ""; runtime := Some 22%N;
               error := None; error_details := None |}
            (World 22 "" "" None)
  /\ runtime_execution (python := cpython) inspector (text spin) 5%N boot = NeverReturns
  /\ (forall fuel, Py.exec_sandboxed fuel
                     [Py.While (Py.Constant (Py.CBool true)) [Py.Pass]] = Py.OutOfFuel).
Proof.
  split; [vm_compute; reflexivity|]. split; [vm_compute; reflexivity|].
  apply spin_never_completes.
Qed.

(** C7, counterexample: a [match] statement with two arms scores 2,
    where one point for each pattern-match arm makes 3. *)
Lemma match_arms_not_counted :
  static_analysis (python := cpython) inspector (text match_statement) boot
  = Returns (Analysis 0 0 0 2) boot
  /\ ast_parse (Python := cpython) (text match_statement) = Parsed two_arm_match
  /\ spec_complexity two_arm_match = 3.
Proof. repeat split; vm_compute; reflexivity. Qed.

(** C5, counterexample: on a source holding a NUL character the
    parser raises [ValueError], on a sum too long for the recursion
    limit it raises [RecursionError], and so does [static_analysis]. *)
Lemma static_analysis_lets_faults_through :
  static_analysis (python := cpython) inspector (String "000"%char EmptyString) boot
  = Raises (new_exception "ValueError" "source code string cannot contain null bytes") boot
  /\ static_analysis (python := cpython) inspector long_sum boot
     = Raises (new_exception "RecursionError"
                 "maximum recursion depth exceeded during ast construction") boot.
Proof. split; vm_compute; reflexivity. Qed.

Lemma static_analysis_on_parser_fault_witness :
  static_analysis (python := cpython) inspector "def broken_function()" boot
  = Returns (SyntaxFault "expected ':' (<unknown>, line 1)" (Some 1) (Some 22)) boot.
Proof.
  destruct (static_analysis_on_parser_fault (python := cpython) inspector
              "def broken_function()" (syntax_error "<unknown>" "expected ':'" 1 22) boot)
    as [Hsyntax _].
  - vm_compute. reflexivity.
  - apply Hsyntax. vm_compute. reflexivity.
Defined.


Lemma complexity_counts_nodes_witness :
  exists function_count class_count import_count,
    static_analysis (python := cpython) inspector (text countdown) boot
    = Returns (Analysis function_count class_count import_count 2) boot.
Proof.
  destruct (complexity_counts_nodes (python := cpython) inspector (text countdown)
              (Py.reify [Py.Assign "n" (Py.Constant (Py.CInt 10));
                         Py.While (Py.Compare (Py.Constant (Py.CInt 0)) Py.Lt (Py.Name "n"))
                           [Py.Assign "n" (Py.BinOp (Py.Name "n") Py.Sub
                                             (Py.Constant (Py.CInt 1)))]])
              boot)
    as (function_count & class_count & import_count & Hreport).
  - vm_compute. reflexivity.
  - exists function_count, class_count, import_count. exact Hreport.
Defined.



(** * Further properties *)

(** ** Counting nodes *)

Lemma length_filter_sum {A} (p : A -> bool) (l : list A) :
  Z.of_nat (length (List.filter p l)) = foldr Z.add 0 (map (fun x => if p x then 1 else 0) l).
Proof.
  induction l as [|x l IH]; simpl; [done|]. destruct (p x); simpl; lia.
Qed.

Lemma count_instances_by_structure classes tree :
  count_instances classes tree = count_nodes classes tree.
Proof.
  unfold count_instances, count_nodes. rewrite length_filter_sum.
  apply (walk_sum (indicator classes)).
Qed.

Lemma tree_sum_le f g tree :
  (forall node, f node <= g node) -> ast.tree_sum f tree <= ast.tree_sum g tree.
Proof.
  intros Hle. rewrite <- !walk_sum.
  induction (ast.walk tree) as [|node nodes IH]; simpl; [done|].
  specialize (Hle node). lia.
Qed.

Lemma tree_sum_ext f g tree :
  (forall node, f node = g node) -> ast.tree_sum f tree = ast.tree_sum g tree.
Proof.
  intros Heq. rewrite <- !walk_sum.
  induction (ast.walk tree) as [|node nodes IH]; simpl; [done|].
  rewrite (Heq node). lia.
Qed.

Lemma tree_sum_one_bounded n tree :
  (ast.size tree <= n)%nat -> ast.tree_sum (fun _ => 1) tree = Z.of_nat (ast.size tree).
Proof.
  revert tree. induction n as [|n IH]; intros tree Hn.
  - destruct tree; simpl in Hn; lia.
  - rewrite tree_sum_children. pose proof (size_children tree) as Hsize.
    assert (forall children,
              (sum_list (map ast.size children) <= n)%nat ->
              foldr Z.add 0 (map (ast.tree_sum (fun _ => 1)) children)
              = Z.of_nat (sum_list (map ast.size children))) as Hchildren.
    { induction children as [|child children IHc]; simpl; intros Hle; [done|].
      rewrite IH by lia. rewrite IHc by lia. lia. }
    rewrite Hchildren by lia. lia.
Qed.

Lemma tree_sum_one tree : ast.tree_sum (fun _ => 1) tree = Z.of_nat (ast.size tree).
Proof. by apply (tree_sum_one_bounded (ast.size tree)). Qed.

Lemma indicator_nonneg classes node : 0 <= indicator classes node.
Proof. unfold indicator. destruct (ast.isinstance node classes); lia. Qed.

Lemma count_nodes_nonneg classes tree : 0 <= count_nodes classes tree.
Proof.
  unfold count_nodes. rewrite <- walk_sum.
  induction (ast.walk tree) as [|node nodes IH]; simpl; [done|].
  pose proof (indicator_nonneg classes node). lia.
Qed.

Lemma indicator_split (first second : string) node :
  first <> second ->
  indicator [first; second] node = indicator [first] node + indicator [second] node.
Proof.
  intros Hne. unfold indicator, ast.isinstance.
  repeat case_bool_decide; try lia;
    repeat match goal with
           | H : _ ∈ _ :: _ |- _ => apply elem_of_cons in H as [H|H]
           | H : _ ∈ [] |- _ => by apply elem_of_nil in H
           | H : ¬ (_ ∈ _ :: _) |- _ => apply not_elem_of_cons in H as [? H]
           end; congruence.
Qed.

Lemma counted_once node :
  indicator ["FunctionDef"] node + indicator ["ClassDef"] node
  + indicator ["Import"; "ImportFrom"] node <= 1.
Proof.
  unfold indicator, ast.isinstance.
  repeat case_bool_decide; try lia;
    repeat match goal with
           | H : _ ∈ _ :: _ |- _ => apply elem_of_cons in H as [H|H]
           | H : _ ∈ [] |- _ => by apply elem_of_nil in H
           end; congruence.
Qed.

Section Counts.
Context {python : Python}.
Implicit Types (self : CodeInspector) (code : string) (w : world).

(** X8: for a source that parses, [function_count] is the number of
    [FunctionDef] nodes anywhere in the tree, nested functions and
    methods included, [class_count] the number of [ClassDef] nodes, and
    [import_count] the number of [Import] nodes plus the number of
    [ImportFrom] nodes. *)
Theorem static_counts_by_structure self code tree w :
  ast_parse code = Parsed tree ->
  static_analysis self code w
  = Returns (Analysis (count_nodes ["FunctionDef"] tree)
                      (count_nodes ["ClassDef"] tree)
                      (count_nodes ["Import"] tree + count_nodes ["ImportFrom"] tree)
                      (_calculate_complexity tree)) w.
Proof.
  intros Hparse. rewrite (static_analysis_parsed self code tree w Hparse).
  rewrite !count_instances_by_structure. do 3 f_equal.
  unfold count_nodes. rewrite <- tree_sum_plus. apply tree_sum_ext.
  intros node. by apply indicator_split.
Qed.

(** X9: no node is counted twice: the three counts are not negative
    and together do not exceed the number of nodes of the tree. *)
Theorem static_counts_bounded self code tree w :
  ast_parse code = Parsed tree ->
  exists function_count class_count import_count complexity_score,
    static_analysis self code w
    = Returns (Analysis function_count class_count import_count complexity_score) w
    /\ 0 <= function_count /\ 0 <= class_count /\ 0 <= import_count
    /\ function_count + class_count + import_count <= Z.of_nat (ast.size tree).
Proof.
  intros Hparse. rewrite (static_analysis_parsed self code tree w Hparse).
  rewrite !count_instances_by_structure. eexists _, _, _, _. split; [reflexivity|].
  split; [apply count_nodes_nonneg|]. split; [apply count_nodes_nonneg|].
  split; [apply count_nodes_nonneg|].
  unfold count_nodes. rewrite <- !tree_sum_plus, <- tree_sum_one.
  apply tree_sum_le. intros node. apply counted_once.
Qed.
End Counts.

(** ** More on the complexity score *)

Lemma weights_all_zero nodes :
  forallb boolop_ok nodes = true ->
  foldr Z.add 0 (map decision_weight nodes) = 0 ->
  forallb (fun node => negb (ast.isinstance node ("BoolOp" :: branching))) nodes = true.
Proof.
  induction nodes as [|node nodes IH]; simpl; [done|].
  intros [Hnode Hrest]%andb_prop Hsum.
  assert (0 <= foldr Z.add 0 (map decision_weight nodes)) as Hnonneg.
  { clear -Hrest. induction nodes as [|n nodes IH]; simpl; [done|].
    apply andb_prop in Hrest as [Hn Hrest]. apply IH in Hrest.
    assert (0 <= decision_weight n); [|lia].
    unfold decision_weight, indicator, boolop_weight, boolop_ok in *.
    destruct (ast.isinstance n branching), (ast.isinstance n ["BoolOp"]); lia. }
  assert (0 <= decision_weight node /\
          (decision_weight node = 0 ->
           ast.isinstance node ("BoolOp" :: branching) = false)) as [Hweight Hzero].
  { unfold decision_weight, indicator, boolop_weight, boolop_ok, ast.isinstance in *.
    destruct (bool_decide (ast.class_of node ∈ branching)) eqn:Hbranch,
             (bool_decide (ast.class_of node ∈ ["BoolOp"])) eqn:Hbool;
      (split; [lia|]); intros Hw; try lia.
    apply bool_decide_eq_false in Hbranch, Hbool.
    apply bool_decide_eq_false. rewrite not_elem_of_cons. split; [|done].
    by rewrite list_elem_of_singleton in Hbool. }
  rewrite Hzero by lia. simpl. apply IH; [done|lia].
Qed.

(** X10: on a tree as the parser builds it, where every boolean
    combination has two operands or more, the score is at least 1, and
    it is 1 only when the tree has no branching node and no boolean
    combination. *)
Theorem complexity_one_iff_straight_line tree :
  well_formed tree = true ->
  1 <= _calculate_complexity tree
  /\ (_calculate_complexity tree = 1 <-> straight_line tree = true).
Proof.
  intros Hwf. rewrite complexity_by_structure.
  pose proof (tree_sum_nonneg tree Hwf) as Hnonneg. split; [lia|]. split.
  - intros Hone. unfold straight_line. apply weights_all_zero; [done|].
    rewrite walk_sum. lia.
  - intros Hstraight. rewrite straight_line_weight by done. lia.
Qed.

(** X11: the score of a tree is the baseline, plus what its root
    adds, plus what each child tree scores above the baseline. *)
Theorem complexity_adds_up class fields :
  _calculate_complexity (ast.Node class fields)
  = 1 + decision_weight (ast.Node class fields)
    + foldr Z.add 0
        (map (fun child => _calculate_complexity child - 1)
             (ast.iter_child_nodes (ast.Node class fields))).
Proof.
  rewrite complexity_by_structure, tree_sum_children.
  rewrite (map_ext (fun child => _calculate_complexity child - 1)
                   (ast.tree_sum decision_weight)); [lia|].
  intros child. rewrite complexity_by_structure. lia.
Qed.

(** X12: the score does not depend on the order in which the loop
    meets the nodes: any rearrangement of what [ast.walk] yields gives
    the same score. *)
Theorem complexity_order_independent tree nodes :
  nodes ≡ₚ ast.walk tree ->
  fold_left complexity_step nodes 1 = _calculate_complexity tree.
Proof.
  intros Hperm. unfold _calculate_complexity. rewrite !fold_complexity_step.
  f_equal. apply foldr_add_Permutation. by apply Permutation_map.
Qed.

(** ** More on the classifier and the suggestions *)

Lemma ERROR_TYPES_never_unknown kind entry :
  ERROR_TYPES !! kind = Some entry ->
  entry !! "category" <> Some "Unknown" /\ entry !! "severity" <> Some "low".
Proof.
  unfold ERROR_TYPES. intros Hin%elem_of_list_to_map_2.
  repeat (apply elem_of_cons in Hin as [Hin|Hin];
          [inversion Hin; split; vm_compute; discriminate|]).
  by apply elem_of_nil in Hin.
Qed.

Lemma dom_classification_of error traceback :
  dom (classification_of error traceback) = classification_keys.
Proof.
  unfold classification_of, classification_keys.
  rewrite !dom_insert_L, dom_singleton_L. set_solver.
Qed.

Lemma dom_suggestion fix_ example code_hint :
  dom (suggestion fix_ example code_hint) = suggestion_keys.
Proof.
  unfold suggestion, suggestion_keys.
  rewrite !dom_insert_L, dom_singleton_L. set_solver.
Qed.

Lemma suggestion_not_generic fix_ example code_hint :
  fix_ <> "Review and debug code" -> suggestion fix_ example code_hint <> generic_suggestion.
Proof.
  intros Hne Heq. apply (f_equal (fun fields => fields !! "fix")) in Heq.
  unfold suggestion, generic_suggestion in Heq.
  rewrite !lookup_insert_eq in Heq. congruence.
Qed.

Section Suggestions.
Context {python : Python}.
Implicit Types (self : CodeInspector) (code : string) (w : world).

Lemma analyze_value self code (error_info : gmap string string) kind w :
  error_info !! "type" = Some kind ->
  exists fix_,
    analyze_and_suggest_fix self code error_info w = Returns [fix_] w
    /\ dom fix_ = suggestion_keys
    /\ (fix_ = generic_suggestion <-> kind ∉ specific_kinds).
Proof.
  intros Htype. unfold analyze_and_suggest_fix, getitem. rewrite Htype.
  unfold mbind, M_bind, mret, M_ret. unfold specific_kinds.
  destruct (String.eqb kind "TypeError") eqn:H1;
    [apply String.eqb_eq in H1 as ->|apply String.eqb_neq in H1].
  { eexists. split; [reflexivity|]. split; [apply dom_suggestion|]. split.
    - intros Heq. by apply suggestion_not_generic in Heq.
    - intros Hnot. exfalso. apply Hnot. apply elem_of_cons. by left. }
  destruct (String.eqb kind "ValueError") eqn:H2;
    [apply String.eqb_eq in H2 as ->|apply String.eqb_neq in H2].
  { eexists. split; [reflexivity|]. split; [apply dom_suggestion|]. split.
    - intros Heq. by apply suggestion_not_generic in Heq.
    - intros Hnot. exfalso. apply Hnot. do 1 (apply elem_of_cons; right).
      apply elem_of_cons. by left. }
  destruct (String.eqb kind "IndexError") eqn:H3;
    [apply String.eqb_eq in H3 as ->|apply String.eqb_neq in H3].
  { eexists. split; [reflexivity|]. split; [apply dom_suggestion|]. split.
    - intros Heq. by apply suggestion_not_generic in Heq.
    - intros Hnot. exfalso. apply Hnot. do 2 (apply elem_of_cons; right).
      apply elem_of_cons. by left. }
  destruct (String.eqb kind "KeyError") eqn:H4;
    [apply String.eqb_eq in H4 as ->|apply String.eqb_neq in H4].
  { eexists. split; [reflexivity|]. split; [apply dom_suggestion|]. split.
    - intros Heq. by apply suggestion_not_generic in Heq.
    - intros Hnot. exfalso. apply Hnot. do 3 (apply elem_of_cons; right).
      apply elem_of_cons. by left. }
  destruct (String.eqb kind "ZeroDivisionError") eqn:H5;
    [apply String.eqb_eq in H5 as ->|apply String.eqb_neq in H5].
  { eexists. split; [reflexivity|]. split; [apply dom_suggestion|]. split.
    - intros Heq. by apply suggestion_not_generic in Heq.
    - intros Hnot. exfalso. apply Hnot. do 4 (apply elem_of_cons; right).
      apply elem_of_cons. by left. }
  exists generic_suggestion. split; [reflexivity|]. split; [apply dom_suggestion|].
  split; [|reflexivity]. intros _.
  rewrite !not_elem_of_cons. repeat (split; [assumption|]). apply not_elem_of_nil.
Qed.


(** X2: given a dictionary with a 'type' entry,
    [analyze_and_suggest_fix] returns exactly one suggestion, with the
    keys fix, example and code_hint; it is the generic one exactly when
    the type is none of TypeError, ValueError, IndexError, KeyError and
    ZeroDivisionError.  Without a 'type' entry it raises [KeyError]. *)
Theorem analyze_and_suggest_fix_single self code (error_info : gmap string string) w :
  match error_info !! "type" with
  | Some kind =>
      exists fix_,
        analyze_and_suggest_fix self code error_info w = Returns [fix_] w
        /\ dom fix_ = suggestion_keys
        /\ (fix_ = generic_suggestion <-> kind ∉ specific_kinds)
  | None =>
      analyze_and_suggest_fix self code error_info w
      = Raises (new_exception "KeyError" (quote +:+ "type" +:+ quote)) w
  end.
Proof.
  destruct (error_info !! "type") as [kind|] eqn:Htype.
  - by apply analyze_value.
  - unfold analyze_and_suggest_fix, getitem. rewrite Htype. reflexivity.
Qed.

End Suggestions.

(** ** More on the report *)

Section Report.
Context {python : Python}.
Implicit Types (self : CodeInspector) (code : string) (w : world).




End Report.

(** ** Column entries *)

Lemma identify_step_appends entries_with_type value :
  exists label,
    col_analysis.identify_step entries_with_type value = entries_with_type ++ [(value, label)]
    /\ col_analysis.identify_step [] value = [(value, label)]
    /\ label ∈ ["numeric"; "string"; "boolean"; "date"; "unknown"]
    /\ (isinstance value "int" = true -> label = "numeric")
    /\ (label = "boolean" ->
        isinstance value "bool" = true /\ isinstance value "int" = false).
Proof.
  unfold col_analysis.identify_step.
  destruct (isinstance value "int") eqn:Hint, (isinstance value "float"),
    (isinstance value "str"), (isinstance value "bool"),
    (isinstance value "Timestamp"), (isinstance value "datetime64"); simpl;
    (eexists; split; [reflexivity|]; split; [reflexivity|]; split;
     [repeat first [apply list_elem_of_here | apply list_elem_of_further]|];
     split; [intros; first [reflexivity|discriminate]|];
     intros; first [discriminate|by split]).
Qed.

Lemma identify_fold column_data entries_with_type :
  fold_left col_analysis.identify_step column_data entries_with_type
  = entries_with_type ++ concat (map (col_analysis.identify_step []) column_data).
Proof.
  revert entries_with_type.
  induction column_data as [|value column_data IH]; intros entries_with_type; simpl.
  - by rewrite app_nil_r.
  - rewrite IH.
    destruct (identify_step_appends entries_with_type value) as (label & -> & -> & _).
    by rewrite <- app_assoc.
Qed.

(** X13: [identify_column_entries] returns one entry for each value
    of the column, in the order of the column, each holding the value
    itself; so the entries of a column in two parts are those of the
    first part followed by those of the second. *)
Theorem identify_column_entries_keeps_values column_data more :
  map fst (col_analysis.identify_column_entries column_data) = column_data
  /\ length (col_analysis.identify_column_entries column_data) = length column_data
  /\ col_analysis.identify_column_entries (column_data ++ more)
     = col_analysis.identify_column_entries column_data
       ++ col_analysis.identify_column_entries more.
Proof.
  unfold col_analysis.identify_column_entries. rewrite !identify_fold. simpl.
  assert (map fst (concat (map (col_analysis.identify_step []) column_data)) = column_data)
    as Hvalues.
  { induction column_data as [|value column_data IH]; simpl; [done|].
    destruct (identify_step_appends [] value) as (label & _ & -> & _).
    simpl. by rewrite IH. }
  split; [exact Hvalues|]. split.
  - rewrite <- Hvalues at 2. by rewrite length_map.
  - by rewrite map_app, concat_app.
Qed.


(** ** The loop of [main] *)

Lemma append_assoc (a b c : string) : (a +:+ b) +:+ c = a +:+ (b +:+ c).
Proof.
  induction a as [|x a IH]; [reflexivity|].
  change (String x ((a +:+ b) +:+ c) = String x (a +:+ (b +:+ c))). by rewrite IH.
Qed.

Lemma append_empty (a : string) : a +:+ EmptyString = a.
Proof.
  induction a as [|x a IH]; [reflexivity|].
  change (String x (a +:+ EmptyString) = String x a). by rewrite IH.
Qed.

Section MainProperties.
Context {python : Python} {json : Json}.

Lemma inspection_streams self code w :
  match comprehensive_inspection self code w with
  | Returns r w' =>
      sys_stdout w' = sys_stdout w /\ sys_stderr w' = sys_stderr w /\ exc_info w' = exc_info w
  | Raises e w' => isinstance e "Exception" = false
  | NeverReturns => exec (clock w) code = Hangs
  end.
Proof.
  rewrite inspection_value. unfold static_outcome.
  destruct (ast_parse code) as [tree|e0].
  2: destruct (isinstance e0 "SyntaxError");
       [|destruct (isinstance e0 "Exception") eqn:Hexception; [|done]].
  all: destruct (exec (clock w) code) as [out err elapsed|e out err elapsed|];
         [| |reflexivity].
  all: try destruct (isinstance e "Exception") eqn:Hfault.
  all: done.
Qed.

Lemma inspect_scenario_cases inspector i scenario w :
  let w1 := World (clock w)
              (sys_stdout w +:+ newline +:+ "--- Code Scenario " +:+ decimal i +:+ " ---"
                 +:+ newline +:+ "Code:" +:+ newline +:+ scenario +:+ newline
                 +:+ newline +:+ "Inspection Result:" +:+ newline)
              (sys_stderr w) (exc_info w) in
  inspect_scenario inspector (i, scenario) w
  = match comprehensive_inspection inspector scenario w1 with
    | Returns result w2 => print (json_dumps result 2) w2
    | Raises e w2 => Raises e w2
    | NeverReturns => NeverReturns
    end.
Proof.
  intros w1. unfold inspect_scenario, mbind, M_bind, print. cbn [clock sys_stdout sys_stderr exc_info].
  replace (World (clock w) _ (sys_stderr w) (exc_info w)) with w1; [reflexivity|].
  subst w1. f_equal. rewrite !append_assoc. reflexivity.
Qed.

Lemma loop_prints inspector scenarios i w :
  match for_each (enumerate scenarios i) (inspect_scenario inspector) w with
  | Returns _ w' =>
      exists results,
        Forall2 (fun scenario result =>
                   exists w1 w2,
                     comprehensive_inspection inspector scenario w1 = Returns result w2)
                scenarios results
        /\ sys_stdout w' = sys_stdout w +:+ blocks i (zip scenarios results)
        /\ sys_stderr w' = sys_stderr w
        /\ exc_info w' = exc_info w
  | Raises e w' => isinstance e "Exception" = false
  | NeverReturns => exists scenario t, scenario ∈ scenarios /\ exec t scenario = Hangs
  end.
Proof.
  revert i w. induction scenarios as [|scenario scenarios IH]; intros i w.
  - simpl. exists []. split; [constructor|]. by rewrite append_empty.
  - cbn [enumerate for_each]. unfold mbind at 1, M_bind at 1.
    rewrite inspect_scenario_cases. cbv zeta.
    match goal with
    | |- context [comprehensive_inspection inspector scenario ?w1] =>
        pose proof (inspection_streams inspector scenario w1) as Hstreams;
        destruct (comprehensive_inspection inspector scenario w1) as [result w2|e w2|] eqn:Hrun
    end.
    + destruct Hstreams as (Hout & Herr & Hhandled). cbn [sys_stdout sys_stderr exc_info] in *.
      unfold print at 1.
      match goal with
      | |- context [for_each _ _ ?w3] =>
          specialize (IH (i + 1) w3);
          destruct (for_each (enumerate scenarios (i + 1)) (inspect_scenario inspector) w3)
            as [[] w'|e w'|]
      end.
      * destruct IH as (results & Hresults & Hout' & Herr' & Hhandled').
        cbn [sys_stdout sys_stderr exc_info] in *.
        exists (result :: results). split; [constructor; eauto|].
        split; [|split; congruence].
        rewrite Hout', Hout. cbn [zip zip_with blocks]. unfold scenario_block.
        rewrite !append_assoc. reflexivity.
      * exact IH.
      * destruct IH as (s & t & Hin & Hhangs). exists s, t. split; [|done].
        by apply list_elem_of_further.
    + exact Hstreams.
    + eexists scenario, _. split; [apply list_elem_of_here|exact Hstreams].
Qed.

(** X15: [main] inspects the six scenarios in order.  When it
    returns, [sys.stdout] holds, after what it held before, one block
    for each scenario: the header with the scenario's number, the code,
    and the report of its inspection as [json.dumps] writes it; what
    the scenarios themselves print is not among it, and [sys.stderr]
    is as it was.  [main] raises only what is no [Exception], and
    fails to return only when the run of a scenario does not end. *)
Theorem main_prints_one_block_per_scenario w :
  match main w with
  | Returns _ w' =>
      exists results,
        Forall2 (fun scenario result =>
                   exists w1 w2,
                     comprehensive_inspection {| verbose := true |} scenario w1
                     = Returns result w2)
                error_scenarios results
        /\ sys_stdout w' = sys_stdout w +:+ blocks 1 (zip error_scenarios results)
        /\ sys_stderr w' = sys_stderr w
        /\ exc_info w' = exc_info w
  | Raises e w' => isinstance e "Exception" = false
  | NeverReturns => exists scenario t, scenario ∈ error_scenarios /\ exec t scenario = Hangs
  end.
Proof. unfold main. apply loop_prints. Qed.
End MainProperties.

(** ** The further statements on the reference runtime *)

Lemma static_counts_by_structure_witness :
  static_analysis (python := cpython) inspector (text process_data) boot
  = Returns (Analysis 1 0 0 1) boot.
Proof.
  destruct (ast_parse (Python := cpython) (text process_data)) as [tree|e] eqn:Hparse.
  - rewrite (static_counts_by_structure (python := cpython) inspector (text process_data)
               tree boot Hparse).
    vm_compute in Hparse. injection Hparse as <-. vm_compute. reflexivity.
  - vm_compute in Hparse. discriminate.
Defined.

Lemma static_counts_bounded_witness :
  exists function_count class_count import_count complexity_score,
    static_analysis (python := cpython) inspector (text process_data) boot
    = Returns (Analysis function_count class_count import_count complexity_score) boot
    /\ function_count + class_count + import_count <= 15.
Proof.
  destruct (ast_parse (Python := cpython) (text process_data)) as [tree|e] eqn:Hparse.
  - destruct (static_counts_bounded (python := cpython) inspector (text process_data)
                tree boot Hparse)
      as (function_count & class_count & import_count & complexity_score
          & Hreturns & _ & _ & _ & Hbound).
    exists function_count, class_count, import_count, complexity_score.
    split; [exact Hreturns|].
    vm_compute in Hparse. injection Hparse as <-. exact Hbound.
  - vm_compute in Hparse. discriminate.
Defined.

Lemma complexity_one_iff_straight_line_witness :
  1 <= _calculate_complexity two_arm_match
  /\ (_calculate_complexity two_arm_match = 1 <-> straight_line two_arm_match = true).
Proof. apply complexity_one_iff_straight_line. reflexivity. Defined.

Lemma complexity_order_independent_witness :
  fold_left complexity_step (reverse (ast.walk two_arm_match)) 1
  = _calculate_complexity two_arm_match.
Proof. apply complexity_order_independent. apply reverse_Permutation. Defined.




